(** * LongVideoBench evaluation script: sharding, image loading, answer matching

    Shallow embedding of [internvl_chat/eval/longvideobench/evaluate_longvideobench.py].

    Python integers are [Z]; [//] and [%] are floor division and its remainder,
    which is what [Z.div] and [Z.modulo] compute for every sign of the operands.
    Python lists are Rocq lists, a [range] object is the list of its elements,
    dictionaries are [gmap]s, and a call that may raise is a computation in the
    exception monad [pyres]. *)

From Stdlib Require Import ZArith Ascii String.
From stdpp Require Import base tactics option list list_numbers strings gmap.

Local Open Scope Z_scope.

(** ** Exceptions *)

Inductive exn : Type :=
  | IndexError
  | KeyError (key : string)
  | ValueError
  | TypeError
  | ZeroDivisionError
  | AssertionError
  | UnboundLocalError
  | OSError
  | RuntimeError (msg : string)
  | OutsideModel.

Inductive pyres (A : Type) : Type :=
  | Ok (a : A)
  | Raise (e : exn).
Arguments Ok {A} a.
Arguments Raise {A} e.

#[global] Instance pyres_ret : MRet pyres := @Ok.
#[global] Instance pyres_bind : MBind pyres := fun A B f m =>
  match m with
  | Ok a => f a
  | Raise e => Raise e
  end.

#[global] Instance exn_eq_dec : EqDecision exn.
Proof. solve_decision. Defined.
#[global] Instance pyres_eq_dec {A} `{EqDecision A} : EqDecision (pyres A).
Proof. solve_decision. Defined.

Definition returns {A} (m : pyres A) : Prop := exists a, m = Ok a.

(** ** Built-ins on integers and lists *)

Module Py.

(** [range(b, e)] and [range(n)], as the list of the elements. *)
Definition range2 (b e : Z) : list Z := seqZ b (e - b).
Definition range (n : Z) : list Z := range2 0 n.

(** [sum(l)]: starts from 0 and adds the elements from the left. *)
Definition sum (l : list Z) : Z := fold_left Z.add l 0.

(** [l[:k]] with Python's treatment of a negative or too large bound. *)
Definition slice_to {A} (l : list A) (k : Z) : list A :=
  take (Z.to_nat (if k <? 0 then Z.of_nat (length l) + k else k)) l.

(** [int(b)] for a boolean. *)
Definition int_of_bool (b : bool) : Z := if b then 1 else 0.

(** [a // b] and [a % b]. *)
Definition floordiv (a b : Z) : pyres Z :=
  if b =? 0 then Raise ZeroDivisionError else Ok (a / b).
Definition modulo (a b : Z) : pyres Z :=
  if b =? 0 then Raise ZeroDivisionError else Ok (a mod b).

(** A list comprehension [[x for x in l if c(x)]] whose condition may raise. *)
Fixpoint filterM {A} (c : A -> pyres bool) (l : list A) : pyres (list A) :=
  match l with
  | [] => Ok []
  | x :: l' =>
      b ← c x;
      r ← filterM c l';
      Ok (if b : bool then x :: r else r)
  end.

(** [[f(x) for x in l]] with a body that may raise. *)
Fixpoint mapM {A B} (f : A -> pyres B) (l : list A) : pyres (list B) :=
  match l with
  | [] => Ok []
  | x :: l' =>
      y ← f x;
      r ← mapM f l';
      Ok (y :: r)
  end.

End Py.

(** ** [InferenceSamplerV2] *)

Module InferenceSamplerV2.

(** The [size] argument of the constructor: an int, a float (of which the
    code only uses [int(size)], carried here), or anything else. *)
Inductive size_arg : Type :=
  | SizeInt (n : Z)
  | SizeFloat (truncated : Z)
  | SizeOther.

Record t : Type := Build
  { _size : Z;
    _rank : Z;
    _world_size : Z;
    _local_indices : list Z }.

(** [__init__]; [rank] and [world_size] are what [dist.get_rank()] and
    [dist.get_world_size()] answer. *)
Definition __init__ (size : size_arg) (rank world_size : Z) : pyres t :=
  size ← match size with
         | SizeFloat n => Ok n
         | SizeInt n => Ok n
         | SizeOther => Raise TypeError
         end;
  if negb (size >? 0) then Raise AssertionError else
  local ← Py.filterM
             (fun i => m ← Py.modulo i world_size; Ok (m =? rank))
             (Py.range size);
  Ok (Build size rank world_size local).

(** The static method [_get_local_indices]. *)
Definition _get_local_indices (total_size world_size rank : Z) : pyres (list Z) :=
  shard_size ← Py.floordiv total_size world_size;
  left ← Py.modulo total_size world_size;
  let shard_sizes :=
    (fun r => shard_size + Py.int_of_bool (r <? left)) <$> Py.range world_size in
  let begin := Py.sum (Py.slice_to shard_sizes rank) in
  let end_ := Z.min (Py.sum (Py.slice_to shard_sizes (rank + 1))) total_size in
  Ok (Py.range2 begin end_).

(** [__iter__] yields the local indices in order; [__len__] counts them. *)
Definition __iter__ (s : t) : list Z := _local_indices s.
Definition __len__ (s : t) : Z := Z.of_nat (length (_local_indices s)).

(** The index list the modulo scheme gives to [rank]. *)
Definition modulo_indices (size world_size rank : Z) : list Z :=
  filter (fun i => i mod world_size = rank) (Py.range size).

(** Where the contiguous shard of [rank] starts. *)
Definition shard_begin (total_size world_size rank : Z) : Z :=
  rank * (total_size / world_size) + Z.min rank (total_size mod world_size).

End InferenceSamplerV2.

(** ** Strings

    A Python [str] is modelled by a [string] whose characters are the code
    points 0 to 255; on these [lower], [strip] and [chr] act character by
    character as defined below. *)

Module Str.

Definition code (c : ascii) : N := N_of_ascii c.

(** [c.lower()] for one character: A-Z and the Latin-1 capitals. *)
Definition lower_char (c : ascii) : ascii :=
  let n := code c in
  if ((65 <=? n) && (n <=? 90) || (192 <=? n) && (n <=? 222) && negb (n =? 215))%N
  then ascii_of_N (n + 32)
  else c.

Fixpoint lower (s : string) : string :=
  match s with
  | EmptyString => EmptyString
  | String c s' => String (lower_char c) (lower s')
  end.

(** [c.isspace()]. *)
Definition isspace (c : ascii) : bool :=
  let n := code c in
  ((9 <=? n) && (n <=? 13) || (28 <=? n) && (n <=? 32) || (n =? 133) || (n =? 160))%N.

Fixpoint rev_append (s acc : string) : string :=
  match s with
  | EmptyString => acc
  | String c s' => rev_append s' (String c acc)
  end.
Definition rev (s : string) : string := rev_append s EmptyString.

Fixpoint lstrip (s : string) : string :=
  match s with
  | EmptyString => EmptyString
  | String c s' => if isspace c then lstrip s' else s
  end.
Definition rstrip (s : string) : string := rev (lstrip (rev s)).
(** [s.strip()]. *)
Definition strip (s : string) : string := rstrip (lstrip s).

(** [s.split(sep)] for a separator of one character. *)
Fixpoint split (sep : ascii) (s : string) : list string :=
  match s with
  | EmptyString => [EmptyString]
  | String c s' =>
      if decide (c = sep) then EmptyString :: split sep s'
      else match split sep s' with
           | w :: ws => String c w :: ws
           | [] => [String c EmptyString]
           end
  end.

(** [sep.join(l)]. *)
Fixpoint join (sep : string) (l : list string) : string :=
  match l with
  | [] => EmptyString
  | [w] => w
  | w :: ws => w +:+ sep +:+ join sep ws
  end.

(** [s.replace(old, new)] for [old] of one character. *)
Fixpoint replace (old : ascii) (new : string) (s : string) : string :=
  match s with
  | EmptyString => EmptyString
  | String c s' =>
      if decide (c = old) then new +:+ replace old new s'
      else String c (replace old new s')
  end.

Fixpoint startswith (p s : string) : bool :=
  match p, s with
  | EmptyString, _ => true
  | String a p', String b s' => if decide (a = b) then startswith p' s' else false
  | String _ _, EmptyString => false
  end.
Definition endswith (p s : string) : bool := startswith (rev p) (rev s).

(** [needle in hay]. *)
Fixpoint contains (needle hay : string) : bool :=
  startswith needle hay ||
  match hay with
  | EmptyString => false
  | String _ hay' => contains needle hay'
  end.

Definition len (s : string) : Z := Z.of_nat (String.length s).

Fixpoint nth (s : string) (n : nat) : option ascii :=
  match s, n with
  | EmptyString, _ => None
  | String c _, O => Some c
  | String _ s', S n' => nth s' n'
  end.

(** The last character of [String c s]. *)
Fixpoint last_char (c : ascii) (s : string) : ascii :=
  match s with
  | EmptyString => c
  | String d s' => last_char d s'
  end.

(** [s[i]], negative [i] counting from the end. *)
Definition index (s : string) (i : Z) : pyres ascii :=
  let j := if i <? 0 then len s + i else i in
  if (j <? 0) || (len s <=? j) then Raise IndexError
  else match nth s (Z.to_nat j) with
       | Some c => Ok c
       | None => Raise IndexError
       end.

Fixpoint take (n : nat) (s : string) : string :=
  match n, s with
  | S n', String c s' => String c (take n' s')
  | _, _ => EmptyString
  end.

(** [s[:k]]. *)
Definition slice_to (s : string) (k : Z) : string :=
  take (Z.to_nat (if k <? 0 then len s + k else k)) s.

(** [chr(n)]; the code points above 255 are outside this model of [str]. *)
Definition chr (n : Z) : pyres string :=
  if (n <? 0) || (1114111 <? n) then Raise ValueError
  else if n <? 256 then Ok (String (ascii_of_N (Z.to_N n)) EmptyString)
  else Raise OutsideModel.

(** [ord(c)]. *)
Definition ord (c : ascii) : Z := Z.of_N (code c).

(** [os.path.join(a, b)] on a POSIX system. *)
Definition path_join2 (a b : string) : string :=
  if startswith "/" b then b
  else if bool_decide (a = EmptyString) || endswith "/" a then a +:+ b
  else a +:+ "/" +:+ b.
Definition path_join (a : string) (ps : list string) : string :=
  fold_left path_join2 ps a.

(** [t] occurs in [s] as a contiguous block. *)
Definition substring_of (t s : string) : Prop :=
  exists pre post, s = pre +:+ t +:+ post.

End Str.

(** [l[i]] and [l[k:]] on lists. *)
Definition list_index {A} (l : list A) (i : Z) : pyres A :=
  let n := Z.of_nat (length l) in
  let j := if i <? 0 then n + i else i in
  if (j <? 0) || (n <=? j) then Raise IndexError
  else match l !! Z.to_nat j with
       | Some x => Ok x
       | None => Raise IndexError
       end.

Definition list_slice_from {A} (l : list A) (k : Z) : list A :=
  drop (Z.to_nat (if k <? 0 then Z.of_nat (length l) + k else k)) l.

(** [d[k]] on a dictionary. *)
Definition dict_get {V} (d : gmap string V) (k : string) : pyres V :=
  match d !! k with
  | Some v => Ok v
  | None => Raise (KeyError k)
  end.

(** ** [check_answer] *)

Definition check_answer (predict gt_answer : string) : pyres bool :=
  let flag := false in
  let predict := Str.lower predict in
  let gt_answer := Str.lower gt_answer in
  let pred_list := Str.split " " (Str.lower predict) in
  pred_option ← list_index pred_list 0;
  let pred_content := Str.join " " (list_slice_from pred_list 1) in
  let gt_list := Str.split " " (Str.lower gt_answer) in
  gt_option ← list_index gt_list 0;
  let gt_content := Str.join " " (list_slice_from gt_list 1) in
  last ← Str.index gt_content (-1);
  let gt_content :=
    if decide (last = "."%char) then Str.slice_to gt_content (-1) else gt_content in
  let flag :=
    if Str.contains (Str.strip (Str.replace "." "" pred_option)) gt_option then true
    else if Str.contains (Str.strip gt_content) pred_content then true
    else flag in
  Ok flag.

(** The matching rule in the words of the specification: both strings are
    lower-cased and cut at the first space into a leading option token and
    the remainder. *)
Module AnswerSpec.

(** What stands before the first space. *)
Fixpoint leading_token (s : string) : string :=
  match s with
  | EmptyString => EmptyString
  | String c s' =>
      if decide (c = " "%char) then EmptyString else String c (leading_token s')
  end.

(** What stands after the first space; empty when there is no space. *)
Fixpoint remainder (s : string) : string :=
  match s with
  | EmptyString => EmptyString
  | String c s' => if decide (c = " "%char) then s' else remainder s'
  end.

(** [s] without its last character when that is a period. *)
Fixpoint strip_trailing_period (s : string) : string :=
  match s with
  | EmptyString => EmptyString
  | String c s' =>
      match s' with
      | EmptyString => if decide (c = "."%char) then EmptyString else s
      | String _ _ => String c (strip_trailing_period s')
      end
  end.

Definition pred_option (predict : string) : string :=
  Str.strip (Str.replace "." "" (leading_token (Str.lower predict))).
Definition gt_option (gt_answer : string) : string :=
  leading_token (Str.lower gt_answer).
Definition pred_content (predict : string) : string :=
  remainder (Str.lower predict).
Definition gt_content (gt_answer : string) : string :=
  Str.strip (strip_trailing_period (remainder (Str.lower gt_answer))).

Definition matches (predict gt_answer : string) : Prop :=
  Str.substring_of (pred_option predict) (gt_option gt_answer)
  \/ Str.substring_of (gt_content gt_answer) (pred_content predict).

End AnswerSpec.

(** ** [ImageIO] *)

Module ImageIO.

(** A PIL image: one made by [Image.new(mode, size, color)], or the
    pixels decoded from a file and converted to RGB. *)
Inductive Image : Type :=
  | ImageNew (mode : string) (size : Z * Z) (color : Z * Z * Z)
  | ImageDecoded (contents : list Z).

Definition empty_image : Image := ImageNew "RGB" (800, 600) (255, 255, 255).

(** What the file system answers during one pass through the loop body:
    whether the path is a file, and the converted image, or [None] when
    [Image.open(..).convert('RGB')] raises an [Exception]. *)
Record attempt : Type := Attempt
  { isfile : bool;
    opened : option Image }.

Definition fails (a : attempt) : Prop :=
  isfile a = false \/ opened a = None.

(** How a call ends: a returned image, returned [None], or a raised error. *)
Inductive value : Type :=
  | PyNone
  | PyImage (img : Image).

Record t : Type := Build { retry_num : Z }.

Definition __init__ : t := Build 10.

(** The [try] block; [image] is the local variable, unbound when [None]. *)
Definition try_body (a : attempt) (image : option Image) : pyres Image :=
  image ← (if isfile a
           then match opened a with
                | Some img => Ok (Some img)
                | None => Raise OSError
                end
           else Ok image);
  match image with
  | Some img => Ok img
  | None => Raise UnboundLocalError
  end.

(** The [for] loop over the remaining iterations [todo]; the state carries
    the number of tracebacks printed so far. *)
Fixpoint loop (env : Z -> attempt) (image_url : string)
    (auto_retry raise_error : bool) (todo : list Z) (image : option Image)
    (printed : nat) : pyres value * nat :=
  match todo with
  | [] => (Ok PyNone, printed)
  | i :: rest =>
      match try_body (env i) image with
      | Ok img => (Ok (PyImage img), printed)
      | Raise _ =>
          let printed := S printed in
          if auto_retry then loop env image_url auto_retry raise_error rest image printed
          else if raise_error then (Raise (RuntimeError image_url), printed)
          else (Ok (PyImage empty_image), printed)
      end
  end.

(** [__call__]: the outcome and the number of failed attempts. *)
Definition __call__ (self : t) (env : Z -> attempt) (image_url : string)
    (auto_retry raise_error : bool) : pyres value * nat :=
  loop env image_url auto_retry raise_error (Py.range (retry_num self)) None 0.

(** The two outcomes the specification allows when every attempt fails. *)
Definition raised_or_placeholder (r : pyres value) : Prop :=
  (exists e, r = Raise e) \/ r = Ok (PyImage empty_image).

End ImageIO.

(** ** [LongVideoBenchDataset] *)

Module LongVideoBenchDataset.

Section dataset.
(** The JSON number type of ["duration"], which the code only copies. *)
Context {num : Type}.

(** One annotation of the benchmark file; ["correct_choice"] is the only
    key read with [.get], so the only one that may be absent. *)
Record annotation : Type := Annotation
  { video_path : string;
    duration : num;
    question : string;
    candidates : list string;
    correct_choice : option Z;
    id : string }.

Record t : Type := Build
  { data_path : string;
    insert_text : bool;
    data : list annotation }.

Record item : Type := Item
  { item_video : string;
    item_bound : Z * num;
    item_question : string;
    item_options : list string;
    item_answer : string;
    item_id : string }.

(** [di.get("correct_choice", d)]. *)
Definition get_correct_choice (di : annotation) (d : Z) : Z :=
  default d (correct_choice di).

(** [[chr(ord("A")+i)+'. '+candidate for i, candidate in enumerate(l)]],
    with [i] starting from [start]. *)
Fixpoint label_options (start : Z) (l : list string) : pyres (list string) :=
  match l with
  | [] => Ok []
  | candidate :: l' =>
      letter ← Str.chr (Str.ord "A" + start);
      rest ← label_options (start + 1) l';
      Ok ((letter +:+ ". " +:+ candidate) :: rest)
  end.

Definition answer_of (di : annotation) : pyres string :=
  letter ← Str.chr (Str.ord "A" + get_correct_choice di (-1));
  text ← list_index (candidates di) (get_correct_choice di 0);
  Ok (letter +:+ ". " +:+ text).

Definition __getitem__ (self : t) (index : Z) : pyres item :=
  di ← list_index (data self) index;
  options ← label_options 0 (candidates di);
  answer ← answer_of di;
  Ok (Item (Str.path_join (data_path self) ["videos"; video_path di])
           (0, duration di)
           (question di)
           options
           answer
           (id di)).

Definition __len__ (self : t) : Z := Z.of_nat (length (data self)).

Definition get_id (self : t) (index : Z) : pyres string :=
  di ← list_index (data self) index;
  Ok (id di).
End dataset.

Arguments annotation : clear implicits.
Arguments t : clear implicits.
Arguments item : clear implicits.

End LongVideoBenchDataset.

(** ** [LongVideoBenchTask.evaluate] *)

Module LongVideoBenchTask.

(** [np.mean] of a list of booleans: the float64 quotient of the number of
    [True] entries by the number of entries, kept as the two integers
    (0 over 0 stands for numpy's nan). *)
Record quotient : Type := Quot { quot_num : Z; quot_den : Z }.

Definition np_mean (l : list bool) : quotient :=
  Quot (Z.of_nat (length (filter (fun b => b = true) l))) (Z.of_nat (length l)).

(** The loop body's call [check_answer(line['pred'], line['gt'])]. *)
Definition score (line : gmap string string) : pyres bool :=
  pred ← dict_get line "pred";
  gt ← dict_get line "gt";
  check_answer pred gt.

(** [evaluate]; the [print] of the metrics is left out. *)
Definition evaluate (merged_outputs : list (gmap string string))
  : pyres (gmap string quotient * list (gmap string string)) :=
  all_acc ← Py.mapM score merged_outputs;
  let metrics : gmap string quotient := ∅ in
  let metrics := <["Accuracy_overall" := np_mean all_acc]> metrics in
  Ok (metrics, merged_outputs).

(** The number of outputs on which [check_answer] returns [True]. *)
Definition matched (outputs : list (gmap string string)) : nat :=
  length (filter (fun line => score line = Ok true) outputs).

End LongVideoBenchTask.

(** ** The rest of the evaluation pipeline

    What the script takes from other packages enters as a parameter: the
    prompt formatting (the template holds a code point above 255), the video
    reader, the image transforms and the chat model. *)

Module StrExt.

Definition newline : string := String "010"%char EmptyString.

(** [sep.join(s)] for a string [s], which is iterated character by character. *)
Fixpoint join_chars (sep s : string) : string :=
  match s with
  | EmptyString => EmptyString
  | String c s' =>
      match s' with
      | EmptyString => String c EmptyString
      | String _ _ => String c (sep +:+ join_chars sep s')
      end
  end.

End StrExt.

Module StandardData.

Section standard_data.
Context {num : Type}.

(** One entry of [videos]: the dictionary with the keys ['video'],
    ['num_frames'] and, optionally, ['bound']. *)
Record video : Type := Video
  { video_url : string;
    bound : option (Z * num);
    num_frames : Z }.

Record t : Type := Build
  { question : string;
    gt_answer : string;
    videos : list video;
    index : Z;
    task_type : string;
    extra : LongVideoBenchDataset.item num }.
End standard_data.

Arguments video : clear implicits.
Arguments t : clear implicits.

End StandardData.

(** [LongVideoBenchTask.__getitem__] and [__len__]. *)
Module TaskItems.

Section task.
Context {num : Type}.
(** [self.prompt.format(question=.., options=..)]. *)
Variable format_prompt : string -> string -> string.

Record t : Type := Build
  { num_frames : Z;
    datas : LongVideoBenchDataset.t num }.

(** Truth value of [line['bound']], a list of two elements. *)
Definition bound_truthy (b : Z * num) : bool := true.

Definition __getitem__ (self : t) (index : Z) : pyres (StandardData.t num) :=
  line ← LongVideoBenchDataset.__getitem__ (datas self) index;
  let videos :=
    if bound_truthy (LongVideoBenchDataset.item_bound line)
    then [StandardData.Video (LongVideoBenchDataset.item_video line)
                             (Some (LongVideoBenchDataset.item_bound line))
                             (num_frames self)]
    else [StandardData.Video (LongVideoBenchDataset.item_video line)
                             None
                             (num_frames self)] in
  let question := LongVideoBenchDataset.item_question line in
  let gt_answer :=
    StrExt.join_chars StrExt.newline (LongVideoBenchDataset.item_answer line) in
  let options :=
    Str.join StrExt.newline (LongVideoBenchDataset.item_options line) in
  let question := format_prompt question options in
  let question := Str.rstrip question in
  again ← LongVideoBenchDataset.__getitem__ (datas self) index;
  let task_type := LongVideoBenchDataset.item_id again in
  Ok (StandardData.Build question gt_answer videos index task_type line).

Definition __len__ (self : t) : Z := LongVideoBenchDataset.__len__ (datas self).
End task.

Arguments t : clear implicits.

End TaskItems.

(** [ImageIO._load_video] for the dictionaries the task builds;
    [read_frames_decord url num_frames start_time end_time] stands for the
    call with [sample='middle'] followed by the conversion of every frame. *)
Module LoadVideo.

Section load_video.
Context {num image : Type}.
Variable read_frames_decord :
  string -> Z -> option Z -> option num -> pyres (list image * list Z).

Definition _load_video (video_url : StandardData.video num)
    : pyres (list image * list Z) :=
  let '(start_time, end_time) :=
    match StandardData.bound video_url with
    | Some b => (Some (fst b), Some (snd b))
    | None => (None, None)
    end in
  let num_frames := StandardData.num_frames video_url in
  let url := StandardData.video_url video_url in
  read_frames_decord url num_frames start_time end_time.
End load_video.

End LoadVideo.

Module InferenceDataset.

Section inference_dataset.
Context {num image tensor : Type}.
Variable format_prompt : string -> string -> string.
Variable read_frames_decord :
  string -> Z -> option Z -> option num -> pyres (list image * list Z).
(** [dynamic_preprocess(image, image_size, use_thumbnail, max_num)]. *)
Variable dynamic_preprocess : image -> Z -> bool -> Z -> pyres (list image).
(** [self.transform], which gives every patch the same shape. *)
Variable transform : image -> pyres tensor.

Record t : Type := Build
  { task : TaskItems.t num;
    input_size : Z;
    dynamic_image_size : bool;
    use_thumbnail : bool;
    max_num : Z }.

Record sample : Type := Sample
  { question : string;
    pixel_values : list tensor;
    answer : string;
    num_patches_list : list Z;
    task_type : string }.

(** The loop over [images], with the two lists it extends. *)
Fixpoint patch_loop (self : t) (images : list image)
    (num_patches_list : list Z) (pixel_values : list tensor)
    : pyres (list Z * list tensor) :=
  match images with
  | [] => Ok (num_patches_list, pixel_values)
  | image :: rest =>
      patches ← (if dynamic_image_size self
                 then dynamic_preprocess image (input_size self)
                        (use_thumbnail self) (max_num self)
                 else Ok [image]);
      let num_patches_list := num_patches_list ++ [Z.of_nat (length patches)] in
      transformed ← Py.mapM transform patches;
      let pixel_values := pixel_values ++ transformed in
      patch_loop self rest num_patches_list pixel_values
  end.

(** [torch.stack] of tensors of one shape; it refuses the empty list. *)
Definition torch_stack (l : list tensor) : pyres (list tensor) :=
  match l with
  | [] => Raise (RuntimeError "stack expects a non-empty TensorList")
  | _ :: _ => Ok l
  end.

Definition __len__ (self : t) : Z := TaskItems.__len__ (task self).

Definition __getitem__ (self : t) (idx : Z) : pyres sample :=
  task_data ← TaskItems.__getitem__ format_prompt (task self) idx;
  batch_frames ← Py.mapM
                   (fun v => r ← LoadVideo._load_video read_frames_decord v;
                             Ok (fst r))
                   (StandardData.videos task_data);
  let images := concat batch_frames in
  r ← patch_loop self images [] [];
  pixel_values ← torch_stack (snd r);
  Ok (Sample (StandardData.question task_data)
             pixel_values
             (StandardData.gt_answer task_data)
             (fst r)
             (StandardData.task_type task_data)).

(** [torch.cat(.., dim=0)]; it refuses the empty list. *)
Definition torch_cat (l : list (list tensor)) : pyres (list tensor) :=
  match l with
  | [] => Raise (RuntimeError "torch.cat(): expected a non-empty list of Tensors")
  | _ :: _ => Ok (concat l)
  end.

Definition collate_fn (batches : list sample)
    : pyres (list tensor * list string * list string * list (list Z) * list string) :=
  pixel_values ← torch_cat (pixel_values <$> batches);
  let questions := question <$> batches in
  let answers := answer <$> batches in
  let num_patches_lists := num_patches_list <$> batches in
  let task_types := task_type <$> batches in
  Ok (pixel_values, questions, answers, num_patches_lists, task_types).
End inference_dataset.

Arguments t : clear implicits.
Arguments sample : clear implicits.

End InferenceDataset.

(** [evaluate_chat_model]: every rank builds its sampler, answers the items
    of its shard one per batch, the lists of all ranks are gathered in rank
    order and chained, and rank 0 scores the result. *)
Module EvaluateChatModel.

Section evaluate_chat_model.
Context {num image tensor : Type}.
Variable format_prompt : string -> string -> string.
Variable read_frames_decord :
  string -> Z -> option Z -> option num -> pyres (list image * list Z).
Variable dynamic_preprocess : image -> Z -> bool -> Z -> pyres (list image).
Variable transform : image -> pyres tensor.
(** [model.chat(pixel_values, num_patches_list, question)]. *)
Variable chat : list tensor -> list Z -> string -> pyres string.

(** One pass of the loop over the data loader, for the batch that holds
    the item [idx] alone. *)
Definition step (vid_dataset : InferenceDataset.t num) (idx : Z)
    : pyres (gmap string string) :=
  item ← InferenceDataset.__getitem__
            format_prompt read_frames_decord dynamic_preprocess transform
            vid_dataset idx;
  batch ← InferenceDataset.collate_fn [item];
  let '(pixel_values, questions, answers, num_patches_lists, task_types) := batch in
  num_patches_list ← list_index num_patches_lists 0;
  question ← list_index questions 0;
  pred ← chat pixel_values num_patches_list question;
  question ← list_index questions 0;
  gt ← list_index answers 0;
  task_type ← list_index task_types 0;
  Ok (<["question" := question]>
        (<["pred" := pred]>
           (<["gt" := gt]>
              (<["task_type" := task_type]> (∅ : gmap string string))))).

(** The list [outputs] of the process [rank]. *)
Definition rank_outputs (vid_dataset : InferenceDataset.t num)
    (rank world_size : Z) : pyres (list (gmap string string)) :=
  sampler ← InferenceSamplerV2.__init__
               (InferenceSamplerV2.SizeInt (InferenceDataset.__len__ vid_dataset))
               rank world_size;
  Py.mapM (step vid_dataset) (InferenceSamplerV2.__iter__ sampler).

(** The gathered and chained list. *)
Definition merged_outputs (vid_dataset : InferenceDataset.t num)
    (world_size : Z) : pyres (list (gmap string string)) :=
  gathered ← Py.mapM (fun rank => rank_outputs vid_dataset rank world_size)
                      (Py.range world_size);
  Ok (concat gathered).

(** The metrics rank 0 writes. *)
Definition evaluate_chat_model (vid_dataset : InferenceDataset.t num)
    (world_size : Z) : pyres (gmap string LongVideoBenchTask.quotient) :=
  merged ← merged_outputs vid_dataset world_size;
  r ← LongVideoBenchTask.evaluate merged;
  Ok (fst r).
End evaluate_chat_model.

End EvaluateChatModel.

(** ** A small run, used to instantiate the statements below *)

Module Example.

Definition annotations : list (LongVideoBenchDataset.annotation Z) :=
  [LongVideoBenchDataset.Annotation
     "clip1.mp4" 12 "What happens?" ["a dog barks"; "a cat sleeps"] (Some 0) "q1";
   LongVideoBenchDataset.Annotation
     "clip2.mp4" 30 "Who enters?" ["a man"; "a woman"] (Some 1) "q2";
   LongVideoBenchDataset.Annotation
     "clip3.mp4" 7 "What falls?" ["a cup"; "a book"] (Some 0) "q3"].

Definition dataset : LongVideoBenchDataset.t Z :=
  LongVideoBenchDataset.Build "/data" true annotations.

Definition vid_dataset : InferenceDataset.t Z :=
  InferenceDataset.Build (TaskItems.Build 1 dataset) 448 false true 6.

Definition format_prompt (question options : string) : string :=
  "Question: " +:+ question +:+ " Options: " +:+ options.

(** A reader that returns one frame, the number of the requested frames. *)
Definition read_frames_decord (url : string) (num_frames : Z)
    (start_time end_time : option Z) : pyres (list Z * list Z) :=
  Ok ([num_frames], [default 0 start_time; default 0 end_time]).

Definition dynamic_preprocess (image : Z) (image_size : Z)
    (use_thumbnail : bool) (max_num : Z) : pyres (list Z) :=
  Ok [image; image].

Definition transform (image : Z) : pyres Z := Ok image.

(** A model that always answers with the first option. *)
Definition chat (pixel_values : list Z) (num_patches_list : list Z)
    (question : string) : pyres string :=
  Ok "A".

End Example.

(** * Properties *)

Section sum_facts.

Lemma fold_left_add_acc (l : list Z) (a : Z) :
  fold_left Z.add l a = a + Py.sum l.
Proof.
  unfold Py.sum. revert a.
  assert (H : forall a b, fold_left Z.add l (a + b) = a + fold_left Z.add l b).
  { induction l as [|x l IH]; intros a b; simpl; [done|].
    replace (a + b + x) with (a + (b + x)) by lia. apply IH. }
  intros a. specialize (H a 0). by rewrite Z.add_0_r in H.
Qed.

Lemma sum_app (l k : list Z) : Py.sum (l ++ k) = Py.sum l + Py.sum k.
Proof.
  unfold Py.sum at 1. rewrite fold_left_app.
  fold (Py.sum l). apply fold_left_add_acc.
Qed.

Lemma sum_singleton (x : Z) : Py.sum [x] = x.
Proof. reflexivity. Qed.

(** The first [n] shard sizes add up to [n] full shards plus one extra
    index for each of the ranks below the remainder. *)
Lemma sum_shard_prefix (q left : Z) (n : nat) :
  0 <= left ->
  Py.sum ((fun r => q + Py.int_of_bool (r <? left)) <$> seqZ 0 (Z.of_nat n))
  = Z.of_nat n * q + Z.min (Z.of_nat n) left.
Proof.
  intros Hleft. induction n as [|n IH].
  - simpl. unfold Py.sum. simpl. lia.
  - rewrite seqZ_S, fmap_app, sum_app, IH, Nat2Z.inj_succ.
    cbn [fmap list_fmap]. rewrite sum_singleton. unfold Py.int_of_bool.
    rewrite Z.add_0_l. destruct (Z.ltb_spec (Z.of_nat n) left); lia.
Qed.

End sum_facts.

(** ** The contiguous scheme *)

Section contiguous.
Import InferenceSamplerV2.

Variables total_size world_size : Z.
Hypothesis world_pos : 0 < world_size.

Let q := total_size / world_size.
Let left := total_size mod world_size.

Lemma left_range : 0 <= left < world_size.
Proof. apply Z.mod_pos_bound, world_pos. Qed.

Lemma total_split : total_size = world_size * q + left.
Proof. apply Z.div_mod. lia. Qed.

Lemma slice_shard_sizes (k : Z) :
  0 <= k <= world_size ->
  Py.slice_to ((fun r => q + Py.int_of_bool (r <? left)) <$> Py.range world_size) k
  = (fun r => q + Py.int_of_bool (r <? left)) <$> seqZ 0 k.
Proof.
  intros Hk. unfold Py.slice_to, Py.range, Py.range2.
  destruct (Z.ltb_spec k 0) as [?|_]; [lia|].
  rewrite <- fmap_take. f_equal.
  replace (world_size - 0) with (k + (world_size - k)) by lia.
  rewrite seqZ_app by lia.
  rewrite take_app_length'; [done|].
  rewrite length_seqZ. done.
Qed.

Lemma sum_slice_shard_sizes (k : Z) :
  0 <= k <= world_size ->
  Py.sum (Py.slice_to
            ((fun r => q + Py.int_of_bool (r <? left)) <$> Py.range world_size) k)
  = k * q + Z.min k left.
Proof.
  intros Hk. rewrite slice_shard_sizes by done.
  rewrite <- (Z2Nat.id k) at 1 by lia.
  rewrite sum_shard_prefix by apply left_range.
  rewrite Z2Nat.id by lia. done.
Qed.

Lemma shard_begin_succ (rank : Z) :
  shard_begin total_size world_size (rank + 1)
  = shard_begin total_size world_size rank
    + (q + Py.int_of_bool (rank <? left)).
Proof.
  unfold shard_begin. fold q left. unfold Py.int_of_bool.
  destruct (Z.ltb_spec rank left); lia.
Qed.

Lemma shard_begin_0 : shard_begin total_size world_size 0 = 0.
Proof. unfold shard_begin. fold q left. pose proof left_range. lia. Qed.

Lemma shard_begin_world :
  shard_begin total_size world_size world_size = total_size.
Proof.
  unfold shard_begin. fold q left.
  pose proof left_range. pose proof total_split. lia.
Qed.

Hypothesis total_nonneg : 0 <= total_size.

Lemma q_nonneg : 0 <= q.
Proof. apply Z.div_pos; lia. Qed.

Lemma shard_begin_mono (r1 r2 : Z) :
  0 <= r1 <= r2 ->
  shard_begin total_size world_size r1 <= shard_begin total_size world_size r2.
Proof.
  intros H. unfold shard_begin. fold q left. pose proof q_nonneg.
  assert (r1 * q <= r2 * q) by nia. lia.
Qed.

(** The call returns the block that starts at [shard_begin] and has one
    index more than the quotient exactly for the ranks below the remainder. *)
Lemma get_local_indices_eq (rank : Z) :
  0 <= rank < world_size ->
  _get_local_indices total_size world_size rank
  = Ok (seqZ (shard_begin total_size world_size rank)
             (q + Py.int_of_bool (rank <? left))).
Proof.
  intros Hr. unfold _get_local_indices, Py.floordiv, Py.modulo.
  destruct (Z.eqb_spec world_size 0) as [?|_]; [lia|].
  cbn [mbind pyres_bind]. fold q left.
  rewrite !sum_slice_shard_sizes by lia.
  change (rank * q + Z.min rank left) with (shard_begin total_size world_size rank).
  change ((rank + 1) * q + Z.min (rank + 1) left)
    with (shard_begin total_size world_size (rank + 1)).
  rewrite Z.min_l.
  - unfold Py.range2. f_equal. f_equal. rewrite shard_begin_succ. lia.
  - rewrite <- shard_begin_world at 2. apply shard_begin_mono. lia.
Qed.

Lemma elem_of_shard (rank i : Z) :
  i ∈ seqZ (shard_begin total_size world_size rank)
           (q + Py.int_of_bool (rank <? left))
  <-> shard_begin total_size world_size rank <= i
      < shard_begin total_size world_size (rank + 1).
Proof. rewrite elem_of_seqZ, shard_begin_succ. done. Qed.

(** Below the start of shard [n] every index lies in an earlier shard. *)
Lemma shard_below (i : Z) (n : nat) :
  0 <= i < shard_begin total_size world_size (Z.of_nat n) ->
  exists r, 0 <= r < Z.of_nat n /\
            shard_begin total_size world_size r <= i
            < shard_begin total_size world_size (r + 1).
Proof.
  induction n as [|n IH]; intros Hi.
  - change (Z.of_nat 0) with 0 in Hi. rewrite shard_begin_0 in Hi. lia.
  - rewrite Nat2Z.inj_succ in Hi |- *.
    destruct (Z.lt_ge_cases i (shard_begin total_size world_size (Z.of_nat n)))
      as [Hlt|Hge].
    + destruct IH as (r & Hr & Hin); [lia|]. exists r. split; [lia|done].
    + exists (Z.of_nat n). replace (Z.of_nat n + 1) with (Z.succ (Z.of_nat n)) by lia.
      split; lia.
Qed.

End contiguous.

Section contiguous_claims.
Import InferenceSamplerV2.

(** C2: for [total_size >= 0], [world_size > 0] and [0 <= rank < world_size],
    [_get_local_indices] returns a contiguous range whose length is
    [total_size // world_size + 1] when [rank < total_size % world_size] and
    [total_size // world_size] otherwise; hence the lengths of two shards
    differ by at most one and a lower rank never has the shorter shard. *)
Theorem get_local_indices_near_equal (total_size world_size rank : Z) :
  0 <= total_size -> 0 < world_size -> 0 <= rank < world_size ->
  exists begin l,
    _get_local_indices total_size world_size rank = Ok l /\
    l = Py.range2 begin (begin + Z.of_nat (length l)) /\
    Z.of_nat (length l)
    = (if rank <? total_size mod world_size
       then total_size / world_size + 1
       else total_size / world_size) /\
    forall rank' l',
      rank <= rank' < world_size ->
      _get_local_indices total_size world_size rank' = Ok l' ->
      Z.of_nat (length l') <= Z.of_nat (length l) <= Z.of_nat (length l') + 1.
Proof.
  intros Htotal Hworld Hrank.
  pose proof (q_nonneg total_size world_size Hworld Htotal) as Hq.
  assert (Hlen : forall r,
    Z.of_nat (length (seqZ (shard_begin total_size world_size r)
      (total_size / world_size + Py.int_of_bool (r <? total_size mod world_size))))
    = if r <? total_size mod world_size
      then total_size / world_size + 1 else total_size / world_size).
  { intros r. rewrite length_seqZ. unfold Py.int_of_bool.
    destruct (r <? total_size mod world_size); lia. }
  eexists _, _. split; [by apply get_local_indices_eq|].
  split; [|split].
  - unfold Py.range2. f_equal. rewrite Hlen. unfold Py.int_of_bool.
    destruct (rank <? total_size mod world_size); lia.
  - apply Hlen.
  - intros rank' l' Hrank' Hl'.
    rewrite get_local_indices_eq in Hl' by lia.
    injection Hl' as <-. rewrite !Hlen.
    destruct (Z.ltb_spec rank (total_size mod world_size)),
             (Z.ltb_spec rank' (total_size mod world_size)); lia.
Qed.

Lemma get_local_indices_near_equal_witness :
  exists begin l,
    _get_local_indices 10 3 0 = Ok l /\
    l = Py.range2 begin (begin + Z.of_nat (length l)) /\
    Z.of_nat (length l) = (if 0 <? 10 mod 3 then 10 / 3 + 1 else 10 / 3) /\
    forall rank' l',
      0 <= rank' < 3 ->
      _get_local_indices 10 3 rank' = Ok l' ->
      Z.of_nat (length l') <= Z.of_nat (length l) <= Z.of_nat (length l') + 1.
Proof. apply (get_local_indices_near_equal 10 3 0); lia. Defined.

(** C1: for [total_size > 0] and [world_size > 0] the ranges that
    [_get_local_indices] returns for the ranks [0 .. world_size-1]
    partition [[0, total_size)]: each call returns a duplicate-free range,
    two different ranks share no index, and an index belongs to the range
    of some rank exactly when it lies in [[0, total_size)]. *)
Theorem get_local_indices_partition (total_size world_size : Z) :
  0 < total_size -> 0 < world_size ->
  (forall rank, 0 <= rank < world_size ->
     exists l, _get_local_indices total_size world_size rank = Ok l /\ NoDup l) /\
  (forall r1 r2 l1 l2 i,
     0 <= r1 < world_size -> 0 <= r2 < world_size ->
     _get_local_indices total_size world_size r1 = Ok l1 ->
     _get_local_indices total_size world_size r2 = Ok l2 ->
     i ∈ l1 -> i ∈ l2 -> r1 = r2) /\
  (forall i,
     (exists rank l, 0 <= rank < world_size /\
                     _get_local_indices total_size world_size rank = Ok l /\
                     i ∈ l)
     <-> 0 <= i < total_size).
Proof.
  intros Htotal Hworld.
  assert (Hnn : 0 <= total_size) by lia.
  pose proof (shard_begin_mono total_size world_size Hworld Hnn) as Hmono.
  split; [|split].
  - intros rank Hrank. eexists. split; [by apply get_local_indices_eq|].
    apply NoDup_seqZ.
  - intros r1 r2 l1 l2 i Hr1 Hr2 Hl1 Hl2 Hi1 Hi2.
    rewrite get_local_indices_eq in Hl1, Hl2 by lia.
    injection Hl1 as <-. injection Hl2 as <-.
    apply elem_of_shard in Hi1, Hi2.
    destruct (Z.lt_trichotomy r1 r2) as [Hlt|[Heq|Hgt]]; [|done|].
    + pose proof (Hmono (r1 + 1) r2). lia.
    + pose proof (Hmono (r2 + 1) r1). lia.
  - intros i. split.
    + intros (rank & l & Hrank & Hl & Hi).
      rewrite get_local_indices_eq in Hl by lia. injection Hl as <-.
      apply elem_of_shard in Hi.
      pose proof (Hmono 0 rank). pose proof (Hmono (rank + 1) world_size).
      rewrite shard_begin_0 in * by done.
      rewrite shard_begin_world in * by done. lia.
    + intros Hi.
      destruct (shard_below total_size world_size Hworld i (Z.to_nat world_size))
        as (r & Hr & Hin).
      { rewrite Z2Nat.id by lia. rewrite shard_begin_world by done. lia. }
      exists r. eexists. split; [lia|]. split.
      * apply get_local_indices_eq; lia.
      * by apply elem_of_shard.
Qed.

Lemma get_local_indices_partition_witness :
  (forall rank, 0 <= rank < 3 ->
     exists l, _get_local_indices 10 3 rank = Ok l /\ NoDup l) /\
  (forall r1 r2 l1 l2 i,
     0 <= r1 < 3 -> 0 <= r2 < 3 ->
     _get_local_indices 10 3 r1 = Ok l1 ->
     _get_local_indices 10 3 r2 = Ok l2 ->
     i ∈ l1 -> i ∈ l2 -> r1 = r2) /\
  (forall i,
     (exists rank l, 0 <= rank < 3 /\ _get_local_indices 10 3 rank = Ok l /\ i ∈ l)
     <-> 0 <= i < 10).
Proof. apply (get_local_indices_partition 10 3); lia. Defined.

End contiguous_claims.

(** ** The modulo scheme *)

Section modulo_scheme.
Import InferenceSamplerV2.

Lemma filterM_modulo (world_size rank : Z) (l : list Z) :
  world_size <> 0 ->
  Py.filterM (fun i => m ← Py.modulo i world_size; Ok (m =? rank)) l
  = Ok (filter (fun i => i mod world_size = rank) l).
Proof.
  intros Hw. induction l as [|i l IH]; [done|].
  cbn [Py.filterM]. rewrite IH. unfold Py.modulo.
  destruct (Z.eqb_spec world_size 0) as [?|_]; [done|].
  cbn [mbind pyres_bind]. rewrite filter_cons.
  destruct (Z.eqb_spec (i mod world_size) rank);
    destruct (decide (i mod world_size = rank)); done.
Qed.

Lemma init_int (size rank world_size : Z) :
  0 < size -> world_size <> 0 ->
  __init__ (SizeInt size) rank world_size
  = Ok (Build size rank world_size (modulo_indices size world_size rank)).
Proof.
  intros Hs Hw. unfold __init__. cbn [mbind pyres_bind].
  destruct (Z.gtb_spec size 0) as [_|?]; [|lia].
  cbn [negb]. rewrite filterM_modulo by done. done.
Qed.

Lemma elem_of_modulo_indices (size world_size rank i : Z) :
  i ∈ modulo_indices size world_size rank
  <-> 0 <= i < size /\ i mod world_size = rank.
Proof.
  unfold modulo_indices, Py.range, Py.range2.
  rewrite list_elem_of_filter, elem_of_seqZ. split; intros [? ?]; split; (done || lia).
Qed.

(** C3: for [size > 0] and [world_size > 0] the index lists that
    [__init__] builds for the ranks [0 .. world_size-1] (index [i] goes to
    rank [i % world_size]) cover [[0, size)] exactly once: every
    construction succeeds with a duplicate-free list, two different ranks
    share no index, and the lists together hold exactly the indices of
    [[0, size)]. *)
Theorem modulo_assignment_partition (size world_size : Z) :
  0 < size -> 0 < world_size ->
  (forall rank, 0 <= rank < world_size ->
     exists s, __init__ (SizeInt size) rank world_size = Ok s /\
               NoDup (__iter__ s) /\
               forall i, i ∈ __iter__ s <-> 0 <= i < size /\ i mod world_size = rank) /\
  (forall r1 r2 s1 s2 i,
     0 <= r1 < world_size -> 0 <= r2 < world_size ->
     __init__ (SizeInt size) r1 world_size = Ok s1 ->
     __init__ (SizeInt size) r2 world_size = Ok s2 ->
     i ∈ __iter__ s1 -> i ∈ __iter__ s2 -> r1 = r2) /\
  (forall i,
     (exists rank s, 0 <= rank < world_size /\
                     __init__ (SizeInt size) rank world_size = Ok s /\
                     i ∈ __iter__ s)
     <-> 0 <= i < size).
Proof.
  intros Hsize Hworld.
  assert (Hw : world_size <> 0) by lia.
  split; [|split].
  - intros rank _. eexists. split; [by apply init_int|].
    unfold __iter__. cbn [_local_indices]. split.
    + apply NoDup_filter, NoDup_seqZ.
    + apply elem_of_modulo_indices.
  - intros r1 r2 s1 s2 i _ _ H1 H2 Hi1 Hi2.
    rewrite init_int in H1, H2 by done.
    injection H1 as <-. injection H2 as <-.
    unfold __iter__ in *. cbn [_local_indices] in *.
    apply elem_of_modulo_indices in Hi1, Hi2. lia.
  - intros i. split.
    + intros (rank & s & _ & Hs & Hi).
      rewrite init_int in Hs by done. injection Hs as <-.
      by apply elem_of_modulo_indices in Hi as [? _].
    + intros Hi. exists (i mod world_size). eexists.
      split; [by apply Z.mod_pos_bound|].
      split; [by apply init_int|].
      unfold __iter__. cbn [_local_indices].
      by apply elem_of_modulo_indices.
Qed.

Lemma modulo_assignment_partition_witness :
  (forall rank, 0 <= rank < 3 ->
     exists s, __init__ (SizeInt 10) rank 3 = Ok s /\
               NoDup (__iter__ s) /\
               forall i, i ∈ __iter__ s <-> 0 <= i < 10 /\ i mod 3 = rank) /\
  (forall r1 r2 s1 s2 i,
     0 <= r1 < 3 -> 0 <= r2 < 3 ->
     __init__ (SizeInt 10) r1 3 = Ok s1 ->
     __init__ (SizeInt 10) r2 3 = Ok s2 ->
     i ∈ __iter__ s1 -> i ∈ __iter__ s2 -> r1 = r2) /\
  (forall i,
     (exists rank s, 0 <= rank < 3 /\
                     __init__ (SizeInt 10) rank 3 = Ok s /\
                     i ∈ __iter__ s)
     <-> 0 <= i < 10).
Proof. apply (modulo_assignment_partition 10 3); lia. Defined.

(** C4: the two assignments differ: for 4 indices on 2 workers, rank 0
    gets the indices 0 and 2 from the modulo scheme of [__init__] and the
    indices 0 and 1 from [_get_local_indices], which are different sets. *)
Theorem assignment_variants_differ :
  exists total_size world_size rank s l,
    __init__ (SizeInt total_size) rank world_size = Ok s /\
    _get_local_indices total_size world_size rank = Ok l /\
    __iter__ s = [0; 2] /\ l = [0; 1] /\
    ~ (forall i, i ∈ __iter__ s <-> i ∈ l).
Proof.
  exists 4, 2, 0. eexists. eexists.
  split; [vm_compute; reflexivity|].
  split; [vm_compute; reflexivity|].
  split; [reflexivity|]. split; [reflexivity|].
  intros H. specialize (H 1) as [_ H].
  assert (Hin : 1 ∈ [0; 1]) by (rewrite !elem_of_cons; auto).
  specialize (H Hin). cbn in H.
  rewrite !elem_of_cons, elem_of_nil in H. lia.
Qed.

End modulo_scheme.

(** ** Image loading *)

Section image_io.
Import ImageIO.

(** An attempt fails exactly when the [try] block raises. *)
Lemma try_body_raises (a : attempt) :
  fails a <-> exists e, try_body a None = Raise e.
Proof.
  unfold fails, try_body. destruct a as [[] [img|]]; cbn; split;
    try (intros [?|?]; done); try (intros [e He]; done); eauto.
Qed.

Lemma retry_num_init : retry_num __init__ = 10.
Proof. reflexivity. Qed.

(** With [auto_retry] set, a run of failing attempts is passed through to the
    end of the loop, one printed traceback each. *)
Lemma loop_auto_retry_all_fail env image_url raise_error todo printed :
  (forall i, i ∈ todo -> fails (env i)) ->
  loop env image_url true raise_error todo None printed
  = (Ok PyNone, (printed + length todo)%nat).
Proof.
  revert printed. induction todo as [|i todo IH]; intros printed Hall.
  - cbn. f_equal. lia.
  - cbn [loop].
    destruct (proj1 (try_body_raises (env i))) as [e ->].
    { apply Hall. left. }
    rewrite IH.
    + f_equal. cbn [length]. lia.
    + intros j Hj. apply Hall. by right.
Qed.

(** Without [auto_retry] the first failing attempt ends the call: an error
    when [raise_error] is set, the blank placeholder otherwise. *)
Lemma call_no_retry env image_url raise_error :
  fails (env 0) ->
  __call__ __init__ env image_url false raise_error
  = (if raise_error then Raise (RuntimeError image_url)
     else Ok (PyImage empty_image), 1%nat).
Proof.
  intros Hf. unfold __call__. cbn [retry_num __init__].
  change (Py.range 10) with (0 :: Py.range2 1 10). cbn [loop].
  destruct (proj1 (try_body_raises (env 0)) Hf) as [e ->].
  by destruct raise_error.
Qed.

(** At most [retry_num] attempts are made. *)
Lemma loop_attempts_bound env image_url auto_retry raise_error todo image printed :
  (snd (loop env image_url auto_retry raise_error todo image printed)
   <= printed + length todo)%nat.
Proof.
  revert printed. induction todo as [|i todo IH]; intros printed; cbn [loop length].
  - cbn. lia.
  - destruct (try_body (env i) image); cbn [snd]; [lia|].
    destruct auto_retry.
    + etrans; [apply IH|]. lia.
    + destruct raise_error; cbn [snd]; lia.
Qed.

(** C9: when every load attempt fails and [auto_retry] is set, the call
    makes all 10 attempts and then returns [None], whatever [raise_error]
    is; this outcome is neither a raised error nor the blank placeholder. *)
Theorem call_auto_retry_returns_none env image_url raise_error :
  (forall i, 0 <= i < 10 -> fails (env i)) ->
  __call__ __init__ env image_url true raise_error = (Ok PyNone, 10%nat) /\
  ~ raised_or_placeholder
      (fst (__call__ __init__ env image_url true raise_error)).
Proof.
  intros Hall.
  assert (Hcall : __call__ __init__ env image_url true raise_error
                  = (Ok PyNone, 10%nat)).
  { unfold __call__. rewrite loop_auto_retry_all_fail.
    - reflexivity.
    - intros i Hi. apply Hall. cbn [retry_num __init__] in Hi.
      unfold Py.range, Py.range2 in Hi. apply elem_of_seqZ in Hi. lia. }
  split; [done|]. rewrite Hcall. cbn [fst].
  intros [[e He]|He]; done.
Qed.

Lemma call_auto_retry_returns_none_witness :
  __call__ __init__ (fun _ => Attempt true None) "frame.jpg" true false
  = (Ok PyNone, 10%nat) /\
  ~ raised_or_placeholder
      (fst (__call__ __init__ (fun _ => Attempt true None) "frame.jpg" true false)).
Proof.
  apply (call_auto_retry_returns_none (fun _ => Attempt true None) "frame.jpg" false).
  intros i _. right. reflexivity.
Defined.

(** C5: on a path that is never a file, with [auto_retry] and [raise_error]
    both set, every one of the 10 attempts fails and the call returns
    [None]: neither a raised error nor the 800x600 white placeholder. *)
Theorem call_exhausted_neither_raises_nor_substitutes :
  (forall i, fails ((fun _ : Z => Attempt false None) i)) /\
  retry_num __init__ = 10 /\
  empty_image = ImageNew "RGB" (800, 600) (255, 255, 255) /\
  __call__ __init__ (fun _ => Attempt false None) "missing.jpg" true true
  = (Ok PyNone, 10%nat) /\
  ~ raised_or_placeholder
      (fst (__call__ __init__ (fun _ => Attempt false None) "missing.jpg" true true)).
Proof.
  split; [intros i; by left|].
  split; [reflexivity|]. split; [reflexivity|].
  split; [reflexivity|].
  cbn. intros [[e He]|He]; done.
Qed.

End image_io.

(** ** Strings *)

Section string_facts.

Lemma app_nil_l (s : string) : "" +:+ s = s.
Proof. reflexivity. Qed.

Lemma app_cons (c : ascii) (s t : string) :
  String c s +:+ t = String c (s +:+ t).
Proof. reflexivity. Qed.

Lemma lower_char_idem (c : ascii) :
  Str.lower_char (Str.lower_char c) = Str.lower_char c.
Proof. destruct c as [[] [] [] [] [] [] [] []]; reflexivity. Qed.

Lemma lower_idem (s : string) : Str.lower (Str.lower s) = Str.lower s.
Proof.
  induction s as [|c s IH]; [done|].
  cbn [Str.lower]. by rewrite lower_char_idem, IH.
Qed.

Lemma split_nonempty (sep : ascii) (s : string) :
  exists w ws, Str.split sep s = w :: ws.
Proof.
  induction s as [|c s (w & ws & IH)]; cbn [Str.split]; [eauto|].
  destruct (decide (c = sep)); [eauto|]. rewrite IH. eauto.
Qed.

(** Joining the pieces of a split gives the string back. *)
Lemma join_split (s : string) : Str.join " " (Str.split " " s) = s.
Proof.
  induction s as [|c s IH]; [done|].
  cbn [Str.split]. destruct (split_nonempty " " s) as (w & ws & Hs).
  rewrite Hs in IH |- *. destruct (decide (c = " "%char)) as [->|_].
  - change (Str.join " " ("" :: w :: ws))
      with ("" +:+ " " +:+ Str.join " " (w :: ws)).
    by rewrite IH.
  - destruct ws as [|w' ws].
    + cbn in IH |- *. by rewrite IH.
    + change (Str.join " " (String c w :: w' :: ws))
        with (String c (w +:+ " " +:+ Str.join " " (w' :: ws))).
      by rewrite <- IH.
Qed.

(** The code's cut of a string, [split(' ')] followed by [[0]] and
    [' '.join(..[1:])], is the cut at the first space. *)
Lemma split_cut (s : string) :
  exists ws, Str.split " " s = AnswerSpec.leading_token s :: ws /\
             Str.join " " ws = AnswerSpec.remainder s.
Proof.
  induction s as [|c s (ws & Hs & Hj)]; [by exists []|].
  cbn [Str.split AnswerSpec.leading_token AnswerSpec.remainder].
  destruct (decide (c = " "%char)).
  - eexists. split; [done|]. apply join_split.
  - rewrite Hs. eauto.
Qed.

Lemma list_index_0 {A} (x : A) (l : list A) : list_index (x :: l) 0 = Ok x.
Proof.
  unfold list_index. cbn [length]. rewrite Nat2Z.inj_succ.
  change (0 <? 0) with false. cbn [orb].
  destruct (Z.leb_spec (Z.succ (Z.of_nat (length l))) 0); [lia|done].
Qed.

Lemma list_slice_from_1 {A} (x : A) (l : list A) : list_slice_from (x :: l) 1 = l.
Proof. reflexivity. Qed.

Lemma contains_unfold_space (c : ascii) (s : string) :
  Str.contains " " (String c s)
  = bool_decide (c = " "%char) || Str.contains " " s.
Proof.
  cbn [Str.contains Str.startswith].
  destruct (decide (" "%char = c)) as [<-|Hne].
  - by rewrite bool_decide_eq_true_2.
  - by rewrite bool_decide_eq_false_2.
Qed.

(** [l[0]] and [' '.join(l[1:])] of the split are the two cuts. *)
Lemma leading_token_code (s : string) :
  list_index (Str.split " " s) 0 = Ok (AnswerSpec.leading_token s).
Proof. destruct (split_cut s) as (ws & -> & _). apply list_index_0. Qed.

Lemma remainder_code (s : string) :
  Str.join " " (list_slice_from (Str.split " " s) 1) = AnswerSpec.remainder s.
Proof. destruct (split_cut s) as (ws & -> & Hj). by rewrite list_slice_from_1. Qed.

Lemma lower_char_space (c : ascii) :
  Str.lower_char c = " "%char -> c = " "%char.
Proof. destruct c as [[] [] [] [] [] [] [] []]; cbv; congruence. Qed.

(** A ground truth of a single token, one without any space, has an empty
    remainder. *)
Lemma remainder_single_token (s : string) :
  Str.contains " " s = false -> AnswerSpec.remainder (Str.lower s) = "".
Proof.
  induction s as [|c s IH]; [done|].
  rewrite contains_unfold_space. cbn [Str.lower AnswerSpec.remainder].
  intros [Hc Hs]%orb_false_iff.
  destruct (decide (Str.lower_char c = " "%char)) as [Heq|_]; [|by apply IH].
  apply lower_char_space in Heq as ->. by rewrite bool_decide_eq_true_2 in Hc.
Qed.

Lemma nth_last (c : ascii) (s : string) :
  Str.nth (String c s) (String.length s) = Some (Str.last_char c s).
Proof.
  revert c. induction s as [|d s IH]; intros c; [done|].
  change (Str.nth (String c (String d s)) (String.length (String d s)))
    with (Str.nth (String d s) (String.length s)).
  by rewrite IH.
Qed.

(** [s[-1]] on a non-empty string is its last character. *)
Lemma index_last (c : ascii) (s : string) :
  Str.index (String c s) (-1) = Ok (Str.last_char c s).
Proof.
  unfold Str.index, Str.len. cbn [String.length]. rewrite Nat2Z.inj_succ.
  change (-1 <? 0) with true. cbn match.
  destruct (Z.ltb_spec (Z.succ (Z.of_nat (String.length s)) + -1) 0); [lia|].
  destruct (Z.leb_spec (Z.succ (Z.of_nat (String.length s)))
                       (Z.succ (Z.of_nat (String.length s)) + -1)); [lia|].
  cbn [orb].
  replace (Z.to_nat (Z.succ (Z.of_nat (String.length s)) + -1))
    with (String.length s) by lia.
  by rewrite nth_last.
Qed.

Lemma index_empty (i : Z) : Str.index "" i = Raise IndexError.
Proof.
  unfold Str.index, Str.len. cbn [String.length].
  destruct (i <? 0) eqn:Hi.
  - destruct (Z.ltb_spec (Z.of_nat 0 + i) 0); [done|]. apply Z.ltb_lt in Hi. lia.
  - destruct (Z.leb_spec (Z.of_nat 0) i); [by rewrite orb_true_r|].
    apply Z.ltb_ge in Hi. lia.
Qed.

(** [s[:-1]] drops the last character. *)
Lemma slice_to_last (c : ascii) (s : string) :
  Str.slice_to (String c s) (-1) = Str.take (String.length s) (String c s).
Proof.
  unfold Str.slice_to, Str.len. cbn [String.length]. rewrite Nat2Z.inj_succ.
  change (-1 <? 0) with true. cbn match. f_equal. lia.
Qed.

(** The code's removal of a trailing period agrees with the structural one. *)
Lemma trailing_period (c : ascii) (s : string) :
  (if decide (Str.last_char c s = "."%char)
   then Str.take (String.length s) (String c s)
   else String c s)
  = AnswerSpec.strip_trailing_period (String c s).
Proof.
  revert c. induction s as [|d s IH]; intros c.
  - cbn. by destruct (decide (c = "."%char)).
  - specialize (IH d).
    change (AnswerSpec.strip_trailing_period (String c (String d s)))
      with (String c (AnswerSpec.strip_trailing_period (String d s))).
    rewrite <- IH.
    change (Str.last_char c (String d s)) with (Str.last_char d s).
    by destruct (decide (Str.last_char d s = "."%char)).
Qed.

Lemma startswith_spec (p s : string) :
  Str.startswith p s = true <-> exists post, s = p +:+ post.
Proof.
  revert s. induction p as [|a p IH]; intros s; cbn [Str.startswith].
  - split; [intros _; by exists s|done].
  - destruct s as [|b s].
    + split; [done|]. intros [post Hp]. done.
    + destruct (decide (a = b)) as [->|Hne].
      * rewrite IH. split; intros [post Hp]; exists post.
        -- by rewrite app_cons, <- Hp.
        -- rewrite app_cons in Hp. by injection Hp.
      * split; [done|]. intros [post Hp]. rewrite app_cons in Hp. congruence.
Qed.

Lemma contains_unfold (t s : string) :
  Str.contains t s
  = Str.startswith t s ||
    match s with
    | EmptyString => false
    | String _ s' => Str.contains t s'
    end.
Proof. by destruct s. Qed.

(** [in] on strings decides the occurrence as a contiguous block. *)
Lemma contains_spec (t s : string) :
  Str.contains t s = true <-> Str.substring_of t s.
Proof.
  unfold Str.substring_of. induction s as [|c s IH].
  - rewrite contains_unfold, orb_false_r, startswith_spec. split.
    + intros [post Hp]. by exists "", post.
    + intros (pre & post & Hp). destruct pre; [by exists post|done].
  - rewrite contains_unfold, orb_true_iff, startswith_spec, IH. split.
    + intros [[post Hp]|(pre & post & Hp)].
      * by exists "", post.
      * exists (String c pre), post. by rewrite app_cons, <- Hp.
    + intros (pre & post & Hp). destruct pre as [|d pre].
      * left. by exists post.
      * right. exists pre, post. rewrite app_cons in Hp. by injection Hp.
Qed.

End string_facts.


(** ** Answer matching *)

Section answer_matching.
Import AnswerSpec.

(** [check_answer] in terms of the two cuts: the only step that can raise is
    [gt_content[-1]], and the flag is the disjunction of the two tests. *)
Lemma check_answer_unfold (predict gt_answer : string) :
  check_answer predict gt_answer
  = (last ← Str.index (remainder (Str.lower gt_answer)) (-1);
     Ok (Str.contains (pred_option predict) (gt_option gt_answer)
         || Str.contains
              (Str.strip
                 (if decide (last = "."%char)
                  then Str.slice_to (remainder (Str.lower gt_answer)) (-1)
                  else remainder (Str.lower gt_answer)))
              (pred_content predict))).
Proof.
  unfold check_answer, pred_option, gt_option, pred_content.
  rewrite !lower_idem, !leading_token_code, !remainder_code.
  cbn [mbind pyres_bind].
  destruct (Str.index (remainder (Str.lower gt_answer)) (-1)) as [last|e]; [|done].
  cbn [mbind pyres_bind]. f_equal.
  match goal with
  | |- (if ?a then true else if ?b then true else false) = _ =>
      by destruct a, b
  end.
Qed.

(** Wherever the ground truth has a non-empty remainder, [check_answer]
    returns, and it returns [True] exactly when the specification's rule
    declares a match. *)
Lemma check_answer_matches (predict gt_answer : string) :
  remainder (Str.lower gt_answer) <> "" ->
  exists b, check_answer predict gt_answer = Ok b /\
            (b = true <-> matches predict gt_answer).
Proof.
  intros Hne. rewrite check_answer_unfold.
  unfold matches, gt_content.
  destruct (remainder (Str.lower gt_answer)) as [|c s] eqn:Hrem; [done|].
  rewrite index_last. cbn [mbind pyres_bind].
  rewrite slice_to_last, trailing_period.
  eexists. split; [done|].
  by rewrite orb_true_iff, !contains_spec.
Qed.

(** C8: when the ground truth has an empty remainder after its leading
    option token (as in ['A.']), the lookup [gt_content[-1]] raises, so
    [check_answer] raises [IndexError] instead of returning a boolean. *)
Theorem check_answer_raises_on_empty_remainder (predict gt_answer : string) :
  remainder (Str.lower gt_answer) = "" ->
  Str.index (remainder (Str.lower gt_answer)) (-1) = Raise IndexError /\
  check_answer predict gt_answer = Raise IndexError /\
  ~ returns (check_answer predict gt_answer).
Proof.
  intros Hrem.
  assert (Hc : check_answer predict gt_answer = Raise IndexError).
  { rewrite check_answer_unfold, Hrem, index_empty. done. }
  split; [by rewrite Hrem, index_empty|].
  split; [done|]. rewrite Hc. intros [b Hb]. done.
Qed.

Lemma check_answer_raises_on_empty_remainder_witness :
  Str.index (remainder (Str.lower "A.")) (-1) = Raise IndexError /\
  check_answer "B. a red car" "A." = Raise IndexError /\
  ~ returns (check_answer "B. a red car" "A.").
Proof.
  apply (check_answer_raises_on_empty_remainder "B. a red car" "A.").
  reflexivity.
Defined.

(** C6: for the prediction ['A'] and the ground truth ['A.'] the rule of
    the specification declares a match (the option token [a] occurs in
    [a.]), but [check_answer] raises [IndexError] instead of returning
    [True]. *)
Theorem check_answer_single_token_ground_truth :
  matches "A" "A." /\
  check_answer "A" "A." = Raise IndexError /\
  check_answer "A" "A." <> Ok true.
Proof.
  split; [|split; [reflexivity|done]].
  left. exists "", ".". reflexivity.
Qed.

End answer_matching.

(** ** Scoring *)

Section scoring.
Import LongVideoBenchTask.

Lemma mapM_score (outputs : list (gmap string string)) :
  Forall (fun line => returns (score line)) outputs ->
  exists accs,
    Py.mapM score outputs = Ok accs /\
    length accs = length outputs /\
    length (filter (fun b => b = true) accs) = matched outputs.
Proof.
  unfold matched. induction 1 as [|line outputs [b Hb] _ (accs & Hm & Hlen & Hcnt)].
  - by exists [].
  - exists (b :: accs). cbn [Py.mapM]. rewrite Hb, Hm. cbn [mbind pyres_bind].
    split; [done|]. split; [cbn [length]; by rewrite Hlen|].
    rewrite !filter_cons, Hb.
    destruct b.
    + rewrite !decide_True by done. cbn [length]. by rewrite Hcnt.
    + rewrite !decide_False by done. done.
Qed.

(** When [check_answer] returns on every output, [evaluate] returns the
    metrics that map ['Accuracy_overall'] to the number of matched outputs
    over the number of outputs, together with the list it was given. *)
Lemma evaluate_returns (outputs : list (gmap string string)) :
  Forall (fun line => returns (score line)) outputs ->
  evaluate outputs
  = Ok ({[ "Accuracy_overall" :=
             Quot (Z.of_nat (matched outputs)) (Z.of_nat (length outputs)) ]},
        outputs).
Proof.
  intros Hall. destruct (mapM_score outputs Hall) as (accs & Hm & Hlen & Hcnt).
  unfold evaluate. rewrite Hm. cbn [mbind pyres_bind].
  unfold np_mean. rewrite Hlen, Hcnt. by rewrite insert_empty.
Qed.

(** An exception of [check_answer] on some output leaves [evaluate]. *)
Lemma evaluate_raises (before after : list (gmap string string)) line e :
  Forall (fun line => returns (score line)) before ->
  score line = Raise e ->
  evaluate (before ++ line :: after) = Raise e.
Proof.
  intros Hall He. unfold evaluate.
  assert (Hm : Py.mapM score (before ++ line :: after) = Raise e).
  { induction Hall as [|x before [b Hb] _ IH]; cbn [Py.mapM app].
    - by rewrite He.
    - by rewrite Hb, IH. }
  by rewrite Hm.
Qed.

(** C7: on the one-element list whose output has prediction ['A'] and
    ground truth ['A.'], [evaluate] raises the [IndexError] of
    [check_answer] instead of returning metrics and the list. *)
Theorem evaluate_single_token_ground_truth :
  evaluate [ {[ "pred" := "A"; "gt" := "A." ]} ] = Raise IndexError /\
  ~ returns (evaluate [ {[ "pred" := "A"; "gt" := "A." ]} ]).
Proof.
  assert (H : evaluate [ {[ "pred" := "A"; "gt" := "A." ]} ] = Raise IndexError)
    by (vm_compute; reflexivity).
  split; [done|]. rewrite H. intros [r Hr]. done.
Qed.

End scoring.

(** ** Dataset items *)

Section dataset_items.
Import LongVideoBenchDataset.
Context {num : Type}.

Lemma chr_latin1 (n : Z) :
  0 <= n < 256 -> Str.chr n = Ok (String (ascii_of_N (Z.to_N n)) "").
Proof.
  intros Hn. unfold Str.chr.
  destruct (Z.ltb_spec n 0); [lia|].
  destruct (Z.ltb_spec 1114111 n); [lia|].
  destruct (Z.ltb_spec n 256); [done|lia].
Qed.

(** Labelling succeeds as long as the letters stay below code point 256,
    that is for at most 256 - 65 = 191 candidates. *)
Lemma label_options_returns (start : Z) (l : list string) :
  0 <= start -> start + Z.of_nat (length l) <= 191 ->
  returns (label_options start l).
Proof.
  revert start. induction l as [|candidate l IH]; intros start H0 Hlen.
  - by eexists.
  - cbn [label_options length] in *.
    rewrite chr_latin1 by (change (Str.ord "A") with 65; lia).
    destruct (IH (start + 1)) as [rest Hrest]; [lia|lia|].
    rewrite Hrest. by eexists.
Qed.

(** C10: for an annotation without the ['correct_choice'] key and with a
    first candidate, the letter of the ['answer'] field comes from the
    default -1 and is ['@'] (the character before ['A']), the text comes from the
    default index 0, and the answer that [__getitem__] returns is ['@. ']
    followed by the first candidate. *)
Theorem getitem_answer_without_correct_choice
    (self : t num) (index : Z) (di : annotation num) (first : string)
    (others : list string) :
  list_index (data self) index = Ok di ->
  correct_choice di = None ->
  candidates di = first :: others ->
  Str.chr (Str.ord "A" + get_correct_choice di (-1)) = Ok "@" /\
  Str.chr (Str.ord "A" - 1) = Ok "@" /\
  list_index (candidates di) (get_correct_choice di 0) = Ok first /\
  answer_of di = Ok ("@. " +:+ first) /\
  (forall it, __getitem__ self index = Ok it -> item_answer it = "@. " +:+ first) /\
  (Z.of_nat (length (candidates di)) <= 191 ->
   exists it, __getitem__ self index = Ok it /\ item_answer it = "@. " +:+ first).
Proof.
  intros Hdi Hcc Hcand.
  assert (Hanswer : answer_of di = Ok ("@. " +:+ first)).
  { unfold answer_of, get_correct_choice. rewrite Hcc, Hcand. cbn [default].
    rewrite list_index_0. reflexivity. }
  split; [unfold get_correct_choice; by rewrite Hcc|].
  split; [reflexivity|].
  split; [unfold get_correct_choice; rewrite Hcc, Hcand; apply list_index_0|].
  split; [done|]. split.
  - intros it Hit. unfold __getitem__ in Hit. rewrite Hdi in Hit.
    cbn [mbind pyres_bind] in Hit.
    destruct (label_options 0 (candidates di)) as [options|e]; [|done].
    cbn [mbind pyres_bind] in Hit. rewrite Hanswer in Hit.
    cbn [mbind pyres_bind] in Hit. by injection Hit as <-.
  - intros Hlen. unfold __getitem__. rewrite Hdi. cbn [mbind pyres_bind].
    destruct (label_options_returns 0 (candidates di)) as [options ->]; [lia|lia|].
    cbn [mbind pyres_bind]. rewrite Hanswer. cbn [mbind pyres_bind].
    eexists. split; [done|]. done.
Qed.

End dataset_items.

Lemma getitem_answer_without_correct_choice_witness :
  LongVideoBenchDataset.answer_of
    (LongVideoBenchDataset.Annotation
       "clip.mp4" 12 "What happens?" ["a dog"; "a cat"] None "q1")
  = Ok "@. a dog" /\
  exists it,
    LongVideoBenchDataset.__getitem__
      (LongVideoBenchDataset.Build "/data" true
         [LongVideoBenchDataset.Annotation
            "clip.mp4" 12 "What happens?" ["a dog"; "a cat"] None "q1"]) 0
    = Ok it /\
    LongVideoBenchDataset.item_answer it = "@. a dog".
Proof.
  destruct (getitem_answer_without_correct_choice (num:=Z)
              (LongVideoBenchDataset.Build "/data" true
                 [LongVideoBenchDataset.Annotation
                    "clip.mp4" 12 "What happens?" ["a dog"; "a cat"] None "q1"])
              0
              (LongVideoBenchDataset.Annotation
                 "clip.mp4" 12 "What happens?" ["a dog"; "a cat"] None "q1")
              "a dog" ["a cat"])
    as (_ & _ & _ & Hanswer & _ & Hitem); [reflexivity..|].
  split; [exact Hanswer|]. apply Hitem. cbn. lia.
Defined.

(** * Further properties of the script *)

(** ** Sharding *)

Section sharding_more.
Import InferenceSamplerV2.

Lemma mapM_ok {A B} (f : A -> pyres B) (g : A -> B) (l : list A) :
  (forall x, x ∈ l -> f x = Ok (g x)) -> Py.mapM f l = Ok (g <$> l).
Proof.
  induction l as [|x l IH]; intros Hf; [done|].
  cbn [Py.mapM]. rewrite Hf by left. rewrite IH by (intros y Hy; apply Hf; by right).
  done.
Qed.

(** Passing from [n] to [n + 1] indices adds one index to the list of the
    rank [n % world_size] and none to the others. *)
Lemma shard_count_step (n w r : Z) :
  0 < w -> 0 <= r < w -> 0 <= n ->
  (n + 1) / w + Py.int_of_bool (r <? (n + 1) mod w)
  = n / w + Py.int_of_bool (r <? n mod w) + Py.int_of_bool (n mod w =? r).
Proof.
  intros Hw Hr Hn.
  pose proof (Z.div_mod n w ltac:(lia)) as Hdm.
  pose proof (Z.mod_pos_bound n w Hw) as Hm.
  destruct (decide (n mod w = w - 1)) as [Hlast|Hlast].
  - assert (Hq : (n + 1) / w = n / w + 1).
    { symmetry. apply (Z.div_unique_pos _ _ _ 0); lia. }
    assert (Hr' : (n + 1) mod w = 0).
    { symmetry. apply (Z.mod_unique_pos _ _ (n / w + 1)); lia. }
    rewrite Hq, Hr'. unfold Py.int_of_bool.
    destruct (Z.ltb_spec r 0), (Z.ltb_spec r (n mod w)), (Z.eqb_spec (n mod w) r); lia.
  - assert (Hq : (n + 1) / w = n / w).
    { symmetry. apply (Z.div_unique_pos _ _ _ (n mod w + 1)); lia. }
    assert (Hr' : (n + 1) mod w = n mod w + 1).
    { symmetry. apply (Z.mod_unique_pos _ _ (n / w)); lia. }
    rewrite Hq, Hr'. unfold Py.int_of_bool.
    destruct (Z.ltb_spec r (n mod w + 1)), (Z.ltb_spec r (n mod w)),
             (Z.eqb_spec (n mod w) r); lia.
Qed.

Lemma modulo_filter_prefix (w r : Z) (n : nat) :
  0 < w -> 0 <= r < w ->
  filter (fun i => i mod w = r) (seqZ 0 (Z.of_nat n))
  = (fun k => r + k * w)
      <$> seqZ 0 (Z.of_nat n / w + Py.int_of_bool (r <? Z.of_nat n mod w)).
Proof.
  intros Hw Hr. induction n as [|n IH].
  - change (Z.of_nat 0) with 0. rewrite Z.div_0_l, Z.mod_0_l by lia.
    unfold Py.int_of_bool. destruct (Z.ltb_spec r 0); [lia|]. done.
  - rewrite seqZ_S, filter_app, IH, Nat2Z.inj_succ.
    replace (Z.succ (Z.of_nat n)) with (Z.of_nat n + 1) by lia.
    rewrite shard_count_step by lia.
    pose proof (Z.div_pos (Z.of_nat n) w ltac:(lia) Hw) as Hq.
    pose proof (Z.div_mod (Z.of_nat n) w ltac:(lia)) as Hdm.
    rewrite Z.add_0_l, filter_cons, filter_nil.
    destruct (decide (Z.of_nat n mod w = r)) as [Heq|Hne].
    + assert (Hlt : (r <? Z.of_nat n mod w) = false) by (apply Z.ltb_ge; lia).
      rewrite (proj2 (Z.eqb_eq _ _) Heq), Hlt. cbn [Py.int_of_bool].
      rewrite Z.add_0_r, (seqZ_app 0 (Z.of_nat n / w) 1), fmap_app by lia.
      f_equal. rewrite Z.add_0_l.
      change (seqZ (Z.of_nat n / w) 1) with [Z.of_nat n / w].
      cbn [fmap list_fmap]. f_equal. lia.
    + rewrite (proj2 (Z.eqb_neq _ _) Hne). cbn [Py.int_of_bool].
      by rewrite Z.add_0_r, app_nil_r.
Qed.

(** The list built for an in-range rank, in closed form. *)
Lemma modulo_indices_eq (size world_size rank : Z) :
  0 <= size -> 0 < world_size -> 0 <= rank < world_size ->
  modulo_indices size world_size rank
  = (fun k => rank + k * world_size)
      <$> seqZ 0 (size / world_size
                  + Py.int_of_bool (rank <? size mod world_size)).
Proof.
  intros Hs Hw Hr. unfold modulo_indices, Py.range, Py.range2.
  rewrite Z.sub_0_r. rewrite <- (Z2Nat.id size) by done.
  by apply modulo_filter_prefix.
Qed.

(** X1: for [size > 0], [world_size > 0] and [0 <= rank < world_size] the
    sampler yields the arithmetic progression [rank, rank + world_size,
    rank + 2*world_size, ...], and its [__len__] is [size // world_size],
    plus one when [rank < size % world_size]. *)
Theorem sampler_yields_progression (size world_size rank : Z) :
  0 < size -> 0 < world_size -> 0 <= rank < world_size ->
  exists s,
    __init__ (SizeInt size) rank world_size = Ok s /\
    __iter__ s = (fun k => rank + k * world_size) <$> Py.range (__len__ s) /\
    __len__ s = size / world_size
                + (if rank <? size mod world_size then 1 else 0).
Proof.
  intros Hs Hw Hr. eexists. split; [apply init_int; lia|].
  unfold __iter__, __len__. cbn [_local_indices].
  rewrite modulo_indices_eq by lia.
  pose proof (Z.div_pos size world_size ltac:(lia) Hw) as Hq.
  assert (Hlen : Z.of_nat (length ((fun k => rank + k * world_size)
                   <$> seqZ 0 (size / world_size
                        + Py.int_of_bool (rank <? size mod world_size))))
                 = size / world_size
                   + Py.int_of_bool (rank <? size mod world_size)).
  { rewrite length_fmap, length_seqZ.
    unfold Py.int_of_bool. destruct (rank <? size mod world_size); lia. }
  rewrite Hlen. split; [|done].
  unfold Py.range, Py.range2. by rewrite Z.sub_0_r.
Qed.

Lemma sampler_yields_progression_witness :
  exists s,
    __init__ (SizeInt 10) 1 3 = Ok s /\
    __iter__ s = (fun k => 1 + k * 3) <$> Py.range (__len__ s) /\
    __len__ s = 10 / 3 + (if 1 <? 10 mod 3 then 1 else 0).
Proof. apply (sampler_yields_progression 10 3 1); lia. Defined.


(** X3: a rank outside [0, world_size) gets no index at all: the
    constructor succeeds with an empty list. *)
Theorem sampler_rank_out_of_range (size world_size rank : Z) :
  0 < size -> 0 < world_size -> ~ (0 <= rank < world_size) ->
  exists s, __init__ (SizeInt size) rank world_size = Ok s /\
            __iter__ s = [] /\ __len__ s = 0.
Proof.
  intros Hs Hw Hr. eexists. split; [apply init_int; lia|].
  unfold __len__, __iter__. cbn [_local_indices].
  assert (Hnil : modulo_indices size world_size rank = []).
  { apply elem_of_nil_inv. intros i Hi.
    apply elem_of_modulo_indices in Hi as [_ Hi].
    pose proof (Z.mod_pos_bound i world_size Hw). lia. }
  by rewrite Hnil.
Qed.

Lemma sampler_rank_out_of_range_witness :
  exists s, __init__ (SizeInt 10) 3 3 = Ok s /\ __iter__ s = [] /\ __len__ s = 0.
Proof. apply (sampler_rank_out_of_range 10 3 3); lia. Defined.

End sharding_more.

Section contiguous_more.
Import InferenceSamplerV2.

Lemma slice_to_all {A} (l : list A) (k : Z) :
  Z.of_nat (length l) <= k -> Py.slice_to l k = l.
Proof.
  intros Hk. unfold Py.slice_to.
  destruct (Z.ltb_spec k 0); [lia|]. apply take_ge. lia.
Qed.

Lemma concat_shards (total_size world_size : Z) (n : nat) :
  0 <= total_size -> 0 < world_size ->
  concat ((fun r => seqZ (shard_begin total_size world_size r)
                         (total_size / world_size
                          + Py.int_of_bool (r <? total_size mod world_size)))
            <$> seqZ 0 (Z.of_nat n))
  = seqZ 0 (shard_begin total_size world_size (Z.of_nat n)).
Proof.
  intros Ht Hw. induction n as [|n IH].
  - change (Z.of_nat 0) with 0. rewrite shard_begin_0 by done. done.
  - rewrite seqZ_S, fmap_app, concat_app, IH, Nat2Z.inj_succ.
    replace (Z.succ (Z.of_nat n)) with (Z.of_nat n + 1) by lia.
    rewrite shard_begin_succ. cbn [fmap list_fmap concat]. rewrite app_nil_r.
    change (0 + Z.of_nat n) with (Z.of_nat n).
    pose proof (q_nonneg total_size world_size Hw Ht).
    pose proof (shard_begin_mono total_size world_size Hw Ht 0 (Z.of_nat n)
                  ltac:(lia)) as Hb.
    rewrite shard_begin_0 in Hb by done.
    rewrite (seqZ_app 0 (shard_begin total_size world_size (Z.of_nat n)));
      [by rewrite Z.add_0_l | lia
      | unfold Py.int_of_bool; destruct (_ <? _); lia].
Qed.

(** X4: for [total_size >= 0] and [world_size > 0], chaining the ranges of
    the ranks 0, 1, ..., [world_size-1] in this order gives
    [range(total_size)]: the contiguous shards follow each other without gap
    or overlap. *)
Theorem contiguous_shards_chain (total_size world_size : Z) :
  0 <= total_size -> 0 < world_size ->
  exists shards,
    Py.mapM (_get_local_indices total_size world_size) (Py.range world_size)
    = Ok shards /\
    concat shards = Py.range total_size.
Proof.
  intros Ht Hw. eexists. split.
  - apply (mapM_ok _ (fun r => seqZ (shard_begin total_size world_size r)
                                 (total_size / world_size
                                  + Py.int_of_bool (r <? total_size mod world_size)))).
    intros r Hr. apply elem_of_seqZ in Hr.
    apply get_local_indices_eq; lia.
  - unfold Py.range at 1, Py.range2. rewrite Z.sub_0_r.
    pose proof (concat_shards total_size world_size (Z.to_nat world_size) Ht Hw)
      as Hc.
    rewrite Z2Nat.id in Hc by lia. rewrite Hc, shard_begin_world by done.
    unfold Py.range, Py.range2. by rewrite Z.sub_0_r.
Qed.

Lemma contiguous_shards_chain_witness :
  exists shards,
    Py.mapM (_get_local_indices 10 3) (Py.range 3) = Ok shards /\
    concat shards = Py.range 10.
Proof. apply (contiguous_shards_chain 10 3); lia. Defined.

(** X5: for [total_size >= 0] and [world_size > 0], a rank at or above
    [world_size] gets the empty range. *)
Theorem contiguous_rank_too_large (total_size world_size rank : Z) :
  0 <= total_size -> 0 < world_size -> world_size <= rank ->
  _get_local_indices total_size world_size rank = Ok [].
Proof.
  intros Ht Hw Hr. unfold _get_local_indices, Py.floordiv, Py.modulo.
  destruct (Z.eqb_spec world_size 0) as [?|_]; [lia|].
  cbn [mbind pyres_bind].
  set (sizes := (fun r => total_size / world_size
                          + Py.int_of_bool (r <? total_size mod world_size))
                  <$> Py.range world_size).
  assert (Hlen : Z.of_nat (length sizes) = world_size).
  { unfold sizes. rewrite length_fmap. unfold Py.range, Py.range2.
    rewrite length_seqZ. lia. }
  rewrite !slice_to_all by lia.
  replace (Py.sum sizes) with (Py.sum (Py.slice_to sizes world_size))
    by (rewrite slice_to_all; [done|lia]).
  unfold sizes. rewrite sum_slice_shard_sizes by lia.
  change (world_size * (total_size / world_size)
          + Z.min world_size (total_size mod world_size))
    with (shard_begin total_size world_size world_size).
  rewrite shard_begin_world by done.
  rewrite Z.min_id. unfold Py.range2. by rewrite Z.sub_diag.
Qed.

Lemma contiguous_rank_too_large_witness :
  _get_local_indices 10 3 3 = Ok [].
Proof. apply (contiguous_rank_too_large 10 3 3); lia. Defined.

(** X6: for [size > 0], [world_size > 0] and [0 <= rank < world_size] the
    two schemes give the rank the same number of indices. *)
Theorem schemes_same_length (size world_size rank : Z) :
  0 < size -> 0 < world_size -> 0 <= rank < world_size ->
  exists s l,
    __init__ (SizeInt size) rank world_size = Ok s /\
    _get_local_indices size world_size rank = Ok l /\
    length l = length (__iter__ s).
Proof.
  intros Hs Hw Hr. eexists _, _.
  split; [apply init_int; lia|].
  split; [apply get_local_indices_eq; lia|].
  unfold __iter__. cbn [_local_indices].
  rewrite modulo_indices_eq by lia.
  by rewrite length_fmap, !length_seqZ.
Qed.

Lemma schemes_same_length_witness :
  exists s l,
    __init__ (SizeInt 10) 0 3 = Ok s /\
    _get_local_indices 10 3 0 = Ok l /\
    length l = length (__iter__ s).
Proof. apply (schemes_same_length 10 3 0); lia. Defined.

(** X7: when there are at most as many indices as workers
    ([0 < size <= world_size]) the two schemes coincide: rank [r] gets the
    single index [r] if [r < size] and nothing otherwise. *)
Theorem schemes_coincide_small (size world_size rank : Z) :
  0 < size <= world_size -> 0 <= rank < world_size ->
  exists s,
    __init__ (SizeInt size) rank world_size = Ok s /\
    _get_local_indices size world_size rank = Ok (__iter__ s) /\
    __iter__ s = if rank <? size then [rank] else [].
Proof.
  intros Hs Hr. eexists. split; [apply init_int; lia|].
  unfold __iter__. cbn [_local_indices].
  rewrite get_local_indices_eq, modulo_indices_eq by lia.
  assert (Hc : size / world_size + Py.int_of_bool (rank <? size mod world_size)
               = Py.int_of_bool (rank <? size)
               /\ (rank < size -> shard_begin size world_size rank = rank)).
  { unfold shard_begin. destruct (decide (size = world_size)) as [->|Hne].
    - rewrite Z_div_same, Z_mod_same by lia. unfold Py.int_of_bool.
      destruct (Z.ltb_spec rank 0), (Z.ltb_spec rank world_size); lia.
    - rewrite Z.div_small, Z.mod_small by lia. split; lia. }
  destruct Hc as [-> Hb]. unfold Py.int_of_bool.
  destruct (Z.ltb_spec rank size) as [Hlt|Hge]; [|done].
  rewrite Hb by done. change (seqZ 0 1) with [0]. cbn [fmap list_fmap].
  split; [|by rewrite Z.mul_0_l, Z.add_0_r].
  f_equal. rewrite Z.mul_0_l, Z.add_0_r. reflexivity.
Qed.

Lemma schemes_coincide_small_witness :
  exists s,
    __init__ (SizeInt 2) 1 4 = Ok s /\
    _get_local_indices 2 4 1 = Ok (__iter__ s) /\
    __iter__ s = if 1 <? 2 then [1] else [].
Proof. apply (schemes_coincide_small 2 4 1); lia. Defined.

End contiguous_more.

(** ** Image loading, continued *)

Section image_io_more.
Import ImageIO.

Lemma try_body_ok (a : attempt) (img : Image) :
  isfile a = true -> opened a = Some img -> try_body a None = Ok img.
Proof. intros Hf Ho. unfold try_body. by rewrite Hf, Ho. Qed.

Lemma loop_auto_retry_first_success env image_url raise_error
    (before after : list Z) (k : Z) (img : Image) (printed : nat) :
  (forall i, i ∈ before -> fails (env i)) ->
  isfile (env k) = true -> opened (env k) = Some img ->
  loop env image_url true raise_error (before ++ k :: after) None printed
  = (Ok (PyImage img), (printed + length before)%nat).
Proof.
  revert printed. induction before as [|i before IH]; intros printed Hall Hf Ho.
  - cbn [app loop length]. rewrite (try_body_ok _ img) by done. f_equal. lia.
  - cbn [app loop length].
    destruct (proj1 (try_body_raises (env i))) as [e ->]; [apply Hall; left|].
    rewrite IH; [f_equal; lia| |done|done].
    intros j Hj. apply Hall. by right.
Qed.

(** The loop ends with [None] only after passing every remaining attempt. *)
Lemma loop_none_inv env image_url auto_retry raise_error todo printed :
  fst (loop env image_url auto_retry raise_error todo None printed) = Ok PyNone ->
  (todo = [] \/ auto_retry = true) /\ forall i, i ∈ todo -> fails (env i).
Proof.
  revert printed. induction todo as [|i todo IH]; intros printed Hnone.
  - split; [by left|]. intros i Hi. by apply elem_of_nil in Hi.
  - cbn [loop] in Hnone.
    destruct (try_body (env i) None) as [img|e] eqn:Htry; [done|].
    destruct auto_retry; [|by destruct raise_error].
    apply IH in Hnone as [_ Hall]. split; [by right|].
    intros j [->|Hj]%elem_of_cons; [|by apply Hall].
    apply try_body_raises. eauto.
Qed.

(** X8: with [auto_retry] set, when the attempts before the [k]-th fail and
    the [k]-th finds a file that opens ([0 <= k < 10]), the call returns that
    image after [k] printed tracebacks, whatever [raise_error] is. *)
Theorem call_auto_retry_recovers env image_url raise_error (k : Z) (img : Image) :
  0 <= k < 10 ->
  (forall i, 0 <= i < k -> fails (env i)) ->
  isfile (env k) = true -> opened (env k) = Some img ->
  __call__ __init__ env image_url true raise_error
  = (Ok (PyImage img), Z.to_nat k).
Proof.
  intros Hk Hall Hf Ho. unfold __call__. cbn [retry_num __init__].
  unfold Py.range, Py.range2.
  replace (10 - 0) with (k + (10 - k)) by lia.
  rewrite seqZ_app, Z.add_0_l, (seqZ_cons k) by lia.
  rewrite (loop_auto_retry_first_success _ _ _ _ _ _ img); [|..|done|done].
  - by rewrite length_seqZ.
  - intros i Hi. apply elem_of_seqZ in Hi. apply Hall. lia.
Qed.

Lemma call_auto_retry_recovers_witness :
  __call__ __init__
    (fun i => if i <? 3 then Attempt false None
              else Attempt true (Some (ImageDecoded [7])))
    "frame.jpg" true true
  = (Ok (PyImage (ImageDecoded [7])), Z.to_nat 3).
Proof.
  apply (call_auto_retry_recovers
           (fun i => if i <? 3 then Attempt false None
                     else Attempt true (Some (ImageDecoded [7])))
           "frame.jpg" true 3 (ImageDecoded [7])).
  - lia.
  - intros i Hi. left. destruct (Z.ltb_spec i 3); [done|lia].
  - reflexivity.
  - reflexivity.
Defined.

(** X9: without [auto_retry] a failing first attempt ends the call after
    one printed traceback: [RuntimeError(image_url)] is raised when
    [raise_error] is set, and the blank placeholder is returned otherwise;
    nothing is retried. *)
Theorem call_without_retry env image_url raise_error :
  fails (env 0) ->
  __call__ __init__ env image_url false raise_error
  = (if raise_error then Raise (RuntimeError image_url)
     else Ok (PyImage empty_image), 1%nat).
Proof. apply call_no_retry. Qed.

Lemma call_without_retry_witness :
  __call__ __init__ (fun _ => Attempt true None) "broken.jpg" false true
  = (if true then Raise (RuntimeError "broken.jpg")
     else Ok (PyImage empty_image), 1%nat).
Proof.
  apply (call_without_retry (fun _ => Attempt true None) "broken.jpg" true).
  by right.
Defined.

(** X10: the call returns [None] exactly when [auto_retry] is set and all
    10 attempts fail; and it never prints more than 10 tracebacks. *)
Theorem call_returns_none_iff env image_url auto_retry raise_error :
  (fst (__call__ __init__ env image_url auto_retry raise_error) = Ok PyNone
   <-> auto_retry = true /\ forall i, 0 <= i < 10 -> fails (env i))
  /\ (snd (__call__ __init__ env image_url auto_retry raise_error) <= 10)%nat.
Proof.
  split; [split|].
  - intros Hnone. unfold __call__ in Hnone. cbn [retry_num __init__] in Hnone.
    apply loop_none_inv in Hnone as [[Hnil| ->] Hall]; [done|].
    split; [done|]. intros i Hi. apply Hall.
    unfold Py.range, Py.range2. apply elem_of_seqZ. lia.
  - intros [-> Hall]. unfold __call__. rewrite loop_auto_retry_all_fail; [done|].
    intros i Hi. cbn [retry_num __init__] in Hi.
    unfold Py.range, Py.range2 in Hi. apply elem_of_seqZ in Hi. apply Hall. lia.
  - unfold __call__. etrans; [apply loop_attempts_bound|]. done.
Qed.

End image_io_more.

(** ** Answer matching, continued *)

Section answer_matching_more.
Import AnswerSpec.

(** X11: for a ground truth with a non-empty remainder after its first
    space, [check_answer] returns a boolean, and this boolean is [True]
    exactly when the normalised predicted option token occurs in the
    ground-truth option token or the normalised ground-truth remainder
    occurs in the predicted remainder. *)
Theorem check_answer_rule (predict gt_answer : string) :
  remainder (Str.lower gt_answer) <> "" ->
  exists b, check_answer predict gt_answer = Ok b /\
            (b = true <-> matches predict gt_answer).
Proof. apply check_answer_matches. Qed.

Lemma check_answer_rule_witness :
  exists b, check_answer "B" "B. A red car." = Ok b /\
            (b = true <-> matches "B" "B. A red car.").
Proof. apply (check_answer_rule "B" "B. A red car."). done. Defined.

(** X12: [check_answer] returns exactly when the lower-cased ground truth
    has a non-empty remainder; the prediction plays no part in this, and
    [IndexError] is the only exception it raises. *)
Theorem check_answer_returns_iff (predict gt_answer : string) :
  (returns (check_answer predict gt_answer)
   <-> remainder (Str.lower gt_answer) <> "")
  /\ (forall e, check_answer predict gt_answer = Raise e -> e = IndexError).
Proof.
  rewrite check_answer_unfold.
  destruct (remainder (Str.lower gt_answer)) as [|c s] eqn:Hrem.
  - rewrite index_empty. cbn [mbind pyres_bind]. split.
    + split; [intros [b Hb]; done|done].
    + intros e He. by injection He.
  - rewrite index_last. cbn [mbind pyres_bind]. split.
    + split; [done|]. intros _. by eexists.
    + intros e He. done.
Qed.

(** X13: the comparison ignores case: two predictions that agree after
    lower-casing, and two ground truths that agree after lower-casing, are
    judged alike. *)
Theorem check_answer_case_insensitive (predict predict' gt_answer gt_answer' : string) :
  Str.lower predict = Str.lower predict' ->
  Str.lower gt_answer = Str.lower gt_answer' ->
  check_answer predict gt_answer = check_answer predict' gt_answer'.
Proof.
  intros Hp Hg. rewrite !check_answer_unfold.
  unfold pred_option, gt_option, pred_content. by rewrite Hp, Hg.
Qed.

Lemma check_answer_case_insensitive_witness :
  check_answer "b. A RED car" "B. a Red Car." = check_answer "B. a red CAR" "b. A red car.".
Proof.
  apply (check_answer_case_insensitive
           "b. A RED car" "B. a red CAR" "B. a Red Car." "b. A red car.");
    reflexivity.
Defined.

Lemma substring_of_empty (s : string) : Str.substring_of "" s.
Proof. by exists "", s. Qed.

(** X14: a prediction whose option token is empty after the removal of
    periods and surrounding whitespace (the empty prediction, ['.'], a
    prediction that starts with a space) is counted as correct against every
    ground truth with a non-empty remainder; so is every prediction when the
    normalised ground-truth remainder is empty. *)
Theorem check_answer_vacuous_match (predict gt_answer : string) :
  remainder (Str.lower gt_answer) <> "" ->
  pred_option predict = "" \/ gt_content gt_answer = "" ->
  check_answer predict gt_answer = Ok true.
Proof.
  intros Hrem Hempty.
  destruct (check_answer_matches predict gt_answer Hrem) as (b & -> & Hb).
  f_equal. apply Hb. unfold matches.
  destruct Hempty as [-> | ->]; [left|right]; apply substring_of_empty.
Qed.

Lemma check_answer_vacuous_match_witness :
  check_answer "" "C. The man opens the door." = Ok true.
Proof.
  apply (check_answer_vacuous_match "" "C. The man opens the door.").
  - done.
  - by left.
Defined.

End answer_matching_more.

(** ** Scoring, continued *)

Section scoring_more.
Import LongVideoBenchTask.

Lemma mapM_inv {A B} (f : A -> pyres B) (l : list A) (ys : list B) :
  Py.mapM f l = Ok ys -> Forall2 (fun x y => f x = Ok y) l ys.
Proof.
  revert ys. induction l as [|x l IH]; intros ys Hm; cbn [Py.mapM] in Hm.
  - injection Hm as <-. constructor.
  - destruct (f x) as [y|e] eqn:Hx; [|done]. cbn [mbind pyres_bind] in Hm.
    destruct (Py.mapM f l) as [r|e] eqn:Hl; [|done]. cbn [mbind pyres_bind] in Hm.
    injection Hm as <-. constructor; [done|by apply IH].
Qed.

Lemma evaluate_returns_inv (outputs : list (gmap string string)) :
  returns (evaluate outputs) -> Forall (fun line => returns (score line)) outputs.
Proof.
  intros [r Hr]. unfold evaluate in Hr.
  destruct (Py.mapM score outputs) as [accs|e] eqn:Hm; [|done].
  apply mapM_inv in Hm. clear Hr.
  induction Hm as [|line b outputs accs Hb _ IH]; constructor; [|done].
  by exists b.
Qed.

Lemma matched_le_length (outputs : list (gmap string string)) :
  (matched outputs <= length outputs)%nat.
Proof. unfold matched. apply length_filter. Qed.

Lemma matched_Permutation (outputs outputs' : list (gmap string string)) :
  outputs ≡ₚ outputs' -> matched outputs = matched outputs'.
Proof. intros Hp. unfold matched. by rewrite Hp. Qed.

(** Scoring does not depend on the order of the outputs. *)
Lemma evaluate_Permutation (outputs outputs' : list (gmap string string)) m :
  outputs ≡ₚ outputs' ->
  evaluate outputs = Ok (m, outputs) ->
  evaluate outputs' = Ok (m, outputs').
Proof.
  intros Hp He.
  assert (Hall : Forall (fun line => returns (score line)) outputs)
    by (apply evaluate_returns_inv; by eexists).
  rewrite evaluate_returns in He by done. injection He as <-.
  rewrite evaluate_returns by (by rewrite <- Hp).
  by rewrite (matched_Permutation _ _ Hp), (Permutation_length Hp).
Qed.

(** X15: when [check_answer] returns on every output, [evaluate] returns
    the given list together with metrics whose only entry maps
    ['Accuracy_overall'] to the number of outputs judged [True] over the
    number of outputs. *)
Theorem evaluate_accuracy (outputs : list (gmap string string)) :
  Forall (fun line => returns (score line)) outputs ->
  evaluate outputs
  = Ok ({[ "Accuracy_overall" :=
             Quot (Z.of_nat (matched outputs)) (Z.of_nat (length outputs)) ]},
        outputs).
Proof. apply evaluate_returns. Qed.

Lemma evaluate_accuracy_witness :
  evaluate [ {[ "pred" := "A"; "gt" := "A. a dog" ]};
             {[ "pred" := "B"; "gt" := "A. a dog" ]} ]
  = Ok ({[ "Accuracy_overall" :=
             Quot (Z.of_nat (matched [ {[ "pred" := "A"; "gt" := "A. a dog" ]};
                                        {[ "pred" := "B"; "gt" := "A. a dog" ]} ]))
                  (Z.of_nat (length [ ({[ "pred" := "A"; "gt" := "A. a dog" ]}
                                        : gmap string string);
                                      {[ "pred" := "B"; "gt" := "A. a dog" ]} ])) ]},
        [ {[ "pred" := "A"; "gt" := "A. a dog" ]};
          {[ "pred" := "B"; "gt" := "A. a dog" ]} ]).
Proof.
  apply (evaluate_accuracy [ {[ "pred" := "A"; "gt" := "A. a dog" ]};
                             {[ "pred" := "B"; "gt" := "A. a dog" ]} ]).
  repeat constructor; by eexists.
Defined.

(** X16: an output without the key ['pred'] makes [evaluate] raise
    [KeyError('pred')], and one with ['pred'] but without ['gt'] makes it
    raise [KeyError('gt')], provided [check_answer] returns on the outputs
    before it. *)
Theorem evaluate_missing_key (before after : list (gmap string string))
    (line : gmap string string) :
  Forall (fun line => returns (score line)) before ->
  line !! "pred" = None \/ line !! "gt" = None ->
  evaluate (before ++ line :: after)
  = Raise (KeyError (match line !! "pred" with
                     | Some _ => "gt"
                     | None => "pred"
                     end)).
Proof.
  intros Hall Hmiss. apply evaluate_raises; [done|].
  unfold score, dict_get.
  destruct (line !! "pred") as [pred|] eqn:Hp; [|done].
  destruct Hmiss as [?|Hg]; [done|]. by rewrite Hg.
Qed.

Lemma evaluate_missing_key_witness :
  evaluate ([] ++ {[ "pred" := "A"; "ground_truth" := "A. a dog" ]} :: [])
  = Raise (KeyError
             (match ({[ "pred" := "A"; "ground_truth" := "A. a dog" ]}
                       : gmap string string) !! "pred" with
              | Some _ => "gt"
              | None => "pred"
              end)).
Proof.
  apply (evaluate_missing_key [] [] {[ "pred" := "A"; "ground_truth" := "A. a dog" ]}).
  - constructor.
  - right. reflexivity.
Defined.

(** X17: the metrics do not depend on the order of the outputs: if
    [evaluate] returns metrics on a list, it returns the same metrics on
    every permutation of the list. *)
Theorem evaluate_order_independent (outputs outputs' : list (gmap string string)) m :
  outputs ≡ₚ outputs' ->
  evaluate outputs = Ok (m, outputs) ->
  evaluate outputs' = Ok (m, outputs').
Proof. apply evaluate_Permutation. Qed.

Lemma evaluate_order_independent_witness :
  evaluate [ {[ "pred" := "B"; "gt" := "A. a dog" ]};
             {[ "pred" := "A"; "gt" := "A. a dog" ]} ]
  = Ok ({[ "Accuracy_overall" := Quot 1 2 ]},
        [ {[ "pred" := "B"; "gt" := "A. a dog" ]};
          {[ "pred" := "A"; "gt" := "A. a dog" ]} ]).
Proof.
  apply (evaluate_order_independent
           [ {[ "pred" := "A"; "gt" := "A. a dog" ]};
             {[ "pred" := "B"; "gt" := "A. a dog" ]} ]).
  - apply perm_swap.
  - vm_compute. reflexivity.
Defined.

(** X18: whenever [evaluate] returns, it returns its argument unchanged,
    the metrics have the single key ['Accuracy_overall'], and the accuracy is
    a count between 0 and the number of outputs over that number. *)
Theorem evaluate_result_shape (outputs : list (gmap string string)) m outputs' :
  evaluate outputs = Ok (m, outputs') ->
  outputs' = outputs /\
  exists k, m = {[ "Accuracy_overall" := Quot k (Z.of_nat (length outputs)) ]} /\
            0 <= k <= Z.of_nat (length outputs).
Proof.
  intros He.
  assert (Hall : Forall (fun line => returns (score line)) outputs)
    by (apply evaluate_returns_inv; by eexists).
  rewrite evaluate_returns in He by done. injection He as <- <-.
  split; [done|]. eexists. split; [done|].
  pose proof (matched_le_length outputs). lia.
Qed.

Lemma evaluate_result_shape_witness :
  [ ({[ "pred" := "A"; "gt" := "A. a dog" ]} : gmap string string) ]
  = [ {[ "pred" := "A"; "gt" := "A. a dog" ]} ] /\
  exists k, ({[ "Accuracy_overall" := Quot 1 1 ]} : gmap string quotient)
            = {[ "Accuracy_overall" :=
                   Quot k (Z.of_nat (length
                     [ ({[ "pred" := "A"; "gt" := "A. a dog" ]}
                          : gmap string string) ])) ]} /\
            0 <= k <= Z.of_nat (length
                     [ ({[ "pred" := "A"; "gt" := "A. a dog" ]}
                          : gmap string string) ]).
Proof.
  apply (evaluate_result_shape [ {[ "pred" := "A"; "gt" := "A. a dog" ]} ]).
  vm_compute. reflexivity.
Defined.

End scoring_more.

(** ** Dataset items, continued *)

Section list_index_facts.
Context {A : Type}.

Lemma list_index_lookup (l : list A) (i : Z) (x : A) :
  0 <= i -> l !! Z.to_nat i = Some x -> list_index l i = Ok x.
Proof.
  intros Hi Hx. unfold list_index. cbv zeta.
  pose proof (lookup_lt_Some _ _ _ Hx) as Hlt.
  destruct (Z.ltb_spec i 0) as [?|_]; [lia|].
  destruct (Z.ltb_spec i 0) as [?|_]; [lia|].
  destruct (Z.leb_spec (Z.of_nat (length l)) i); [lia|].
  cbn [orb]. by rewrite Hx.
Qed.

Lemma list_index_ok_inv (l : list A) (i : Z) (x : A) :
  0 <= i -> list_index l i = Ok x -> l !! Z.to_nat i = Some x.
Proof.
  intros Hi. unfold list_index. cbv zeta.
  destruct (Z.ltb_spec i 0) as [?|_]; [lia|].
  destruct (_ || _); [done|].
  destruct (l !! Z.to_nat i); [|done]. by intros [= ->].
Qed.

Lemma list_index_out_of_range (l : list A) (i : Z) :
  ~ (- Z.of_nat (length l) <= i < Z.of_nat (length l)) ->
  list_index l i = Raise IndexError.
Proof.
  intros Hi. unfold list_index. cbv zeta.
  destruct (Z.ltb_spec i 0).
  - destruct (Z.ltb_spec (Z.of_nat (length l) + i) 0); [reflexivity|lia].
  - destruct (Z.leb_spec (Z.of_nat (length l)) i); [|lia].
    by rewrite orb_true_r.
Qed.

Lemma list_index_negative (l : list A) (i : Z) :
  - Z.of_nat (length l) <= i < 0 ->
  list_index l i = list_index l (Z.of_nat (length l) + i).
Proof.
  intros Hi. unfold list_index. cbv zeta.
  assert (H1 : (i <? 0) = true) by (apply Z.ltb_lt; lia).
  assert (H2 : (Z.of_nat (length l) + i <? 0) = false) by (apply Z.ltb_ge; lia).
  by rewrite H1, !H2.
Qed.

End list_index_facts.

Section dataset_more.
Import LongVideoBenchDataset.
Context {num : Type}.

Lemma getitem_inv (self : t num) (index : Z) (it : item num) :
  __getitem__ self index = Ok it ->
  exists di options,
    list_index (data self) index = Ok di /\
    label_options 0 (candidates di) = Ok options /\
    answer_of di = Ok (item_answer it) /\
    it = Item (Str.path_join (data_path self) ["videos"; video_path di])
              (0, duration di) (question di) options (item_answer it) (id di).
Proof.
  unfold __getitem__. intros Hit.
  destruct (list_index (data self) index) as [di|e] eqn:Hdi; [|done].
  cbn [mbind pyres_bind] in Hit.
  destruct (label_options 0 (candidates di)) as [options|e] eqn:Hopts; [|done].
  cbn [mbind pyres_bind] in Hit.
  destruct (answer_of di) as [answer|e] eqn:Hans; [|done].
  cbn [mbind pyres_bind] in Hit. injection Hit as <-.
  exists di, options. repeat split; (reflexivity || assumption).
Qed.

Lemma label_options_lookup (start : Z) (l options : list string) :
  label_options start l = Ok options ->
  length options = length l /\
  forall (k : nat) (candidate : string),
    l !! k = Some candidate ->
    exists letter,
      Str.chr (Str.ord "A" + (start + Z.of_nat k)) = Ok letter /\
      options !! k = Some (letter +:+ ". " +:+ candidate).
Proof.
  revert start options. induction l as [|c l IH]; intros start options Hl.
  - injection Hl as <-. split; [done|]. intros k candidate Hk. done.
  - cbn [label_options] in Hl.
    destruct (Str.chr (Str.ord "A" + start)) as [letter|e] eqn:Hletter; [|done].
    cbn [mbind pyres_bind] in Hl.
    destruct (label_options (start + 1) l) as [rest|e] eqn:Hrest; [|done].
    cbn [mbind pyres_bind] in Hl. injection Hl as <-.
    destruct (IH _ _ Hrest) as [Hlen Hlook]. split; [cbn; by rewrite Hlen|].
    intros [|k] candidate Hk.
    + injection Hk as <-. exists letter.
      by rewrite Nat2Z.inj_0, Z.add_0_r.
    + destruct (Hlook k candidate Hk) as (letter' & Hl' & Ho).
      exists letter'. split; [|done].
      rewrite <- Hl'. f_equal. lia.
Qed.

(** X19: an index outside [[-len, len)] makes [__getitem__] and [get_id]
    raise [IndexError]. *)
Theorem getitem_index_out_of_range (self : t num) (index : Z) :
  ~ (- __len__ self <= index < __len__ self) ->
  __getitem__ self index = Raise IndexError /\
  get_id self index = Raise IndexError.
Proof.
  intros Hi. unfold __getitem__, get_id, __len__ in *.
  by rewrite list_index_out_of_range.
Qed.

(** X20: a negative index counts from the end: for [-len <= index < 0],
    [__getitem__] at [index] is [__getitem__] at [len + index]. *)
Theorem getitem_negative_index (self : t num) (index : Z) :
  - __len__ self <= index < 0 ->
  __getitem__ self index = __getitem__ self (__len__ self + index).
Proof.
  intros Hi. unfold __getitem__, __len__ in *.
  by rewrite list_index_negative.
Qed.

(** X21: the ['options'] of a returned item has one entry per candidate,
    and the entry at position [k] is the letter [chr(ord('A') + k)], then
    ['. '], then the [k]-th candidate. *)
Theorem getitem_options (self : t num) (index : Z) (di : annotation num)
    (it : item num) :
  list_index (data self) index = Ok di ->
  __getitem__ self index = Ok it ->
  length (item_options it) = length (candidates di) /\
  forall (k : nat) (candidate : string),
    candidates di !! k = Some candidate ->
    exists letter,
      Str.chr (65 + Z.of_nat k) = Ok letter /\
      item_options it !! k = Some (letter +:+ ". " +:+ candidate).
Proof.
  intros Hdi Hit.
  destruct (getitem_inv _ _ _ Hit) as (di' & options & Hdi' & Hopts & _ & ->).
  rewrite Hdi in Hdi'. injection Hdi' as <-. cbn [item_options].
  destruct (label_options_lookup _ _ _ Hopts) as [Hlen Hlook].
  split; [done|]. intros k candidate Hk.
  destruct (Hlook k candidate Hk) as (letter & Hl & Ho).
  exists letter. split; [|done]. rewrite <- Hl. reflexivity.
Qed.

(** X22: when ['correct_choice'] is present and is an index [k] of a
    candidate ([0 <= k < len(candidates)]), the ['answer'] of the item is its
    option number [k]. *)
Theorem getitem_answer_is_option (self : t num) (index : Z) (di : annotation num)
    (it : item num) (k : Z) :
  list_index (data self) index = Ok di ->
  __getitem__ self index = Ok it ->
  correct_choice di = Some k ->
  0 <= k < Z.of_nat (length (candidates di)) ->
  item_options it !! Z.to_nat k = Some (item_answer it).
Proof.
  intros Hdi Hit Hcc Hk.
  destruct (getitem_inv _ _ _ Hit) as (di' & options & Hdi' & Hopts & Hans & Heq).
  rewrite Hdi in Hdi'. injection Hdi' as <-.
  rewrite Heq. cbn [item_options item_answer].
  unfold answer_of, get_correct_choice in Hans. rewrite Hcc in Hans.
  cbn [default from_option] in Hans. change (Datatypes.id k) with k in Hans.
  destruct (Str.chr (Str.ord "A" + k)) as [letter|e] eqn:Hletter;
    cbn [mbind pyres_bind] in Hans; [|done].
  destruct (list_index (candidates di) k) as [text|e] eqn:Htext;
    cbn [mbind pyres_bind] in Hans; [|done].
  injection Hans as <-.
  apply list_index_ok_inv in Htext; [|lia].
  destruct (label_options_lookup _ _ _ Hopts) as [_ Hlook].
  destruct (Hlook _ _ Htext) as (letter' & Hl' & Ho).
  rewrite Z.add_0_l, Z2Nat.id, Hletter in Hl' by lia.
  by injection Hl' as <-.
Qed.

End dataset_more.

Lemma getitem_index_out_of_range_witness :
  LongVideoBenchDataset.__getitem__
    (LongVideoBenchDataset.Build "/data" true
       [LongVideoBenchDataset.Annotation
          "clip.mp4" 12 "What happens?" ["a dog"; "a cat"] (Some 1) "q1"]) 1
  = Raise IndexError /\
  LongVideoBenchDataset.get_id
    (LongVideoBenchDataset.Build "/data" true
       [LongVideoBenchDataset.Annotation
          "clip.mp4" 12 "What happens?" ["a dog"; "a cat"] (Some 1) "q1"]) 1
  = Raise IndexError.
Proof.
  apply (getitem_index_out_of_range (num:=Z)
           (LongVideoBenchDataset.Build "/data" true
              [LongVideoBenchDataset.Annotation
                 "clip.mp4" 12 "What happens?" ["a dog"; "a cat"] (Some 1) "q1"]) 1).
  unfold LongVideoBenchDataset.__len__. simpl. lia.
Defined.

Lemma getitem_negative_index_witness :
  LongVideoBenchDataset.__getitem__
    (LongVideoBenchDataset.Build "/data" true
       [LongVideoBenchDataset.Annotation
          "clip.mp4" 12 "What happens?" ["a dog"; "a cat"] (Some 1) "q1"]) (-1)
  = LongVideoBenchDataset.__getitem__
      (LongVideoBenchDataset.Build "/data" true
         [LongVideoBenchDataset.Annotation
            "clip.mp4" 12 "What happens?" ["a dog"; "a cat"] (Some 1) "q1"])
      (LongVideoBenchDataset.__len__
         (LongVideoBenchDataset.Build "/data" true
            [LongVideoBenchDataset.Annotation
               "clip.mp4" 12 "What happens?" ["a dog"; "a cat"] (Some 1) "q1"])
       + -1).
Proof.
  apply (getitem_negative_index (num:=Z)
           (LongVideoBenchDataset.Build "/data" true
              [LongVideoBenchDataset.Annotation
                 "clip.mp4" 12 "What happens?" ["a dog"; "a cat"] (Some 1) "q1"])
           (-1)).
  unfold LongVideoBenchDataset.__len__. simpl. lia.
Defined.

Lemma getitem_options_witness :
  length ["A. a dog"; "B. a cat"] = length ["a dog"; "a cat"] /\
  forall (k : nat) (candidate : string),
    ["a dog"; "a cat"] !! k = Some candidate ->
    exists letter,
      Str.chr (65 + Z.of_nat k) = Ok letter /\
      ["A. a dog"; "B. a cat"] !! k = Some (letter +:+ ". " +:+ candidate).
Proof.
  apply (getitem_options (num:=Z)
           (LongVideoBenchDataset.Build "/data" true
              [LongVideoBenchDataset.Annotation
                 "clip.mp4" 12 "What happens?" ["a dog"; "a cat"] (Some 1) "q1"])
           0
           (LongVideoBenchDataset.Annotation
              "clip.mp4" 12 "What happens?" ["a dog"; "a cat"] (Some 1) "q1")
           (LongVideoBenchDataset.Item "/data/videos/clip.mp4" (0, 12)
              "What happens?" ["A. a dog"; "B. a cat"] "B. a cat" "q1"));
    reflexivity.
Defined.

Lemma getitem_answer_is_option_witness :
  ["A. a dog"; "B. a cat"] !! Z.to_nat 1 = Some "B. a cat".
Proof.
  apply (getitem_answer_is_option (num:=Z)
           (LongVideoBenchDataset.Build "/data" true
              [LongVideoBenchDataset.Annotation
                 "clip.mp4" 12 "What happens?" ["a dog"; "a cat"] (Some 1) "q1"])
           0
           (LongVideoBenchDataset.Annotation
              "clip.mp4" 12 "What happens?" ["a dog"; "a cat"] (Some 1) "q1")
           (LongVideoBenchDataset.Item "/data/videos/clip.mp4" (0, 12)
              "What happens?" ["A. a dog"; "B. a cat"] "B. a cat" "q1")
           1).
  - reflexivity.
  - reflexivity.
  - reflexivity.
  - simpl. lia.
Defined.

(** ** Paths *)

Section paths.
Import LongVideoBenchDataset.
Context {num : Type}.

Lemma append_assoc (a b c : string) : (a +:+ b) +:+ c = a +:+ b +:+ c.
Proof. induction a as [|x a IH]; [done|]. by rewrite !app_cons, IH. Qed.

Lemma rev_append_app (a b acc : string) :
  Str.rev_append (a +:+ b) acc = Str.rev_append b (Str.rev_append a acc).
Proof.
  revert acc. induction a as [|x a IH]; intros acc; [done|].
  rewrite app_cons. cbn [Str.rev_append]. apply IH.
Qed.

Lemma endswith_slash_videos (a : string) :
  Str.endswith "/" (a +:+ "/" +:+ "videos") = false.
Proof.
  unfold Str.endswith, Str.rev. rewrite rev_append_app. reflexivity.
Qed.

Lemma append_nonempty (a b : string) : a <> "" -> a +:+ b <> "".
Proof. destruct a; [done|]. intros _. by rewrite app_cons. Qed.

(** X23: the ['video'] of an item is [os.path.join(data_path, 'videos',
    video_path)]: an absolute [video_path] replaces the whole path, and
    otherwise, for a non-empty [data_path] without a trailing slash, the
    result is [data_path/videos/video_path]. *)
Theorem getitem_video_path (self : t num) (index : Z) (di : annotation num)
    (it : item num) :
  list_index (data self) index = Ok di ->
  __getitem__ self index = Ok it ->
  (Str.startswith "/" (video_path di) = true ->
   item_video it = video_path di) /\
  (Str.startswith "/" (video_path di) = false ->
   data_path self <> "" -> Str.endswith "/" (data_path self) = false ->
   item_video it = data_path self +:+ "/videos/" +:+ video_path di).
Proof.
  intros Hdi Hit.
  destruct (getitem_inv _ _ _ Hit) as (di' & options & Hdi' & _ & _ & Heq).
  rewrite Hdi in Hdi'. injection Hdi' as <-.
  rewrite Heq. cbn [item_video]. unfold Str.path_join. cbn [fold_left].
  split.
  - intros Habs. unfold Str.path_join2 at 1. by rewrite Habs.
  - intros Hrel Hne Hslash.
    assert (Hfirst : Str.path_join2 (data_path self) "videos"
                     = data_path self +:+ "/" +:+ "videos").
    { unfold Str.path_join2. cbn [Str.startswith]. rewrite Hslash.
      rewrite bool_decide_eq_false_2 by done.
      destruct (decide ("/"%char = "v"%char)); done. }
    rewrite Hfirst. unfold Str.path_join2. rewrite Hrel, endswith_slash_videos.
    rewrite bool_decide_eq_false_2 by (by apply append_nonempty).
    cbn [orb]. by rewrite !append_assoc.
Qed.

End paths.

Lemma getitem_video_path_witness :
  (Str.startswith "/" "clip.mp4" = true -> "/data/videos/clip.mp4" = "clip.mp4") /\
  (Str.startswith "/" "clip.mp4" = false ->
   "/data" <> "" -> Str.endswith "/" "/data" = false ->
   "/data/videos/clip.mp4" = "/data" +:+ "/videos/" +:+ "clip.mp4").
Proof.
  apply (getitem_video_path (num:=Z)
           (LongVideoBenchDataset.Build "/data" true
              [LongVideoBenchDataset.Annotation
                 "clip.mp4" 12 "What happens?" ["a dog"; "a cat"] (Some 1) "q1"])
           0
           (LongVideoBenchDataset.Annotation
              "clip.mp4" 12 "What happens?" ["a dog"; "a cat"] (Some 1) "q1")
           (LongVideoBenchDataset.Item "/data/videos/clip.mp4" (0, 12)
              "What happens?" ["A. a dog"; "B. a cat"] "B. a cat" "q1"));
    reflexivity.
Defined.

(** ** Task items *)

Section task_items.
Context {num image : Type}.
Variable format_prompt : string -> string -> string.

Lemma task_getitem_inv (self : TaskItems.t num) (index : Z)
    (sd : StandardData.t num) :
  TaskItems.__getitem__ format_prompt self index = Ok sd ->
  exists it,
    LongVideoBenchDataset.__getitem__ (TaskItems.datas self) index = Ok it /\
    sd = StandardData.Build
           (Str.rstrip
              (format_prompt (LongVideoBenchDataset.item_question it)
                 (Str.join StrExt.newline (LongVideoBenchDataset.item_options it))))
           (StrExt.join_chars StrExt.newline (LongVideoBenchDataset.item_answer it))
           [StandardData.Video (LongVideoBenchDataset.item_video it)
                               (Some (LongVideoBenchDataset.item_bound it))
                               (TaskItems.num_frames self)]
           index
           (LongVideoBenchDataset.item_id it)
           it.
Proof.
  unfold TaskItems.__getitem__. intros Hsd.
  destruct (LongVideoBenchDataset.__getitem__ (TaskItems.datas self) index)
    as [it|e] eqn:Hit; [|done].
  cbn [mbind pyres_bind TaskItems.bound_truthy] in Hsd.
  injection Hsd as <-. by exists it.
Qed.

Lemma join_chars_cons (c d : ascii) (s : string) :
  StrExt.join_chars StrExt.newline (String c (String d s))
  = String c (String "010" (StrExt.join_chars StrExt.newline (String d s))).
Proof. reflexivity. Qed.

Lemma join_chars_length (s : string) :
  String.length (StrExt.join_chars StrExt.newline s)
  = (2 * String.length s - 1)%nat.
Proof.
  induction s as [|c s IH]; [done|]. destruct s as [|d s]; [done|].
  rewrite join_chars_cons. cbn [String.length] in *. rewrite IH. lia.
Qed.

Lemma join_chars_nth_even (s : string) (k : nat) :
  Str.nth (StrExt.join_chars StrExt.newline s) (2 * k) = Str.nth s k.
Proof.
  revert k. induction s as [|c s IH]; intros k; [done|].
  destruct s as [|d s].
  - destruct k as [|k]; [done|]. cbn [StrExt.join_chars].
    replace (2 * S k)%nat with (S (S (2 * k))) by lia. by destruct k.
  - rewrite join_chars_cons. destruct k as [|k]; [done|].
    replace (2 * S k)%nat with (S (S (2 * k))) by lia.
    cbn [Str.nth]. apply IH.
Qed.

Lemma join_chars_nth_odd (s : string) (k : nat) :
  (S k < String.length s)%nat ->
  Str.nth (StrExt.join_chars StrExt.newline s) (2 * k + 1) = Some "010"%char.
Proof.
  revert k. induction s as [|c s IH]; intros k Hk; [cbn in Hk; lia|].
  destruct s as [|d s]; [cbn in Hk; lia|].
  rewrite join_chars_cons. destruct k as [|k]; [done|].
  replace (2 * S k + 1)%nat with (S (S (2 * k + 1))) by lia.
  cbn [Str.nth]. apply IH. cbn [String.length] in *. lia.
Qed.

(** X24: the [gt_answer] of a task item is not the item's answer but
    ['\n'.join] of it, taken character by character: it has
    [2 * len(answer) - 1] characters, those at the even positions are the
    characters of the answer, and a newline stands at every odd position. *)
Theorem task_gt_answer_interleaved (self : TaskItems.t num) (index : Z)
    (sd : StandardData.t num) :
  TaskItems.__getitem__ format_prompt self index = Ok sd ->
  exists it,
    LongVideoBenchDataset.__getitem__ (TaskItems.datas self) index = Ok it /\
    String.length (StandardData.gt_answer sd)
    = (2 * String.length (LongVideoBenchDataset.item_answer it) - 1)%nat /\
    (forall k, Str.nth (StandardData.gt_answer sd) (2 * k)
               = Str.nth (LongVideoBenchDataset.item_answer it) k) /\
    (forall k, (S k < String.length (LongVideoBenchDataset.item_answer it))%nat ->
               Str.nth (StandardData.gt_answer sd) (2 * k + 1) = Some "010"%char).
Proof.
  intros Hsd. destruct (task_getitem_inv _ _ _ Hsd) as (it & Hit & ->).
  exists it. cbn [StandardData.gt_answer]. split; [done|].
  split; [apply join_chars_length|].
  split; [apply join_chars_nth_even|apply join_chars_nth_odd].
Qed.

Variable read_frames_decord :
  string -> Z -> option Z -> option num -> pyres (list image * list Z).

(** X25: a task item holds exactly one video, and [_load_video] reads it
    with the frame count of the task, from time 0 to the ['duration'] of the
    annotation; the default of 8 frames is never used. *)
Theorem task_video_loaded_over_duration (self : TaskItems.t num) (index : Z)
    (di : LongVideoBenchDataset.annotation num) (sd : StandardData.t num) :
  list_index (LongVideoBenchDataset.data (TaskItems.datas self)) index = Ok di ->
  TaskItems.__getitem__ format_prompt self index = Ok sd ->
  exists v,
    StandardData.videos sd = [v] /\
    LoadVideo._load_video read_frames_decord v
    = read_frames_decord
        (Str.path_join (LongVideoBenchDataset.data_path (TaskItems.datas self))
           ["videos"; LongVideoBenchDataset.video_path di])
        (TaskItems.num_frames self)
        (Some 0)
        (Some (LongVideoBenchDataset.duration di)).
Proof.
  intros Hdi Hsd. destruct (task_getitem_inv _ _ _ Hsd) as (it & Hit & ->).
  destruct (getitem_inv _ _ _ Hit) as (di' & options & Hdi' & _ & _ & Heq).
  rewrite Hdi in Hdi'. injection Hdi' as <-.
  eexists. split; [done|]. rewrite Heq. reflexivity.
Qed.

End task_items.

Lemma task_gt_answer_interleaved_witness :
  exists it,
    LongVideoBenchDataset.__getitem__
      (LongVideoBenchDataset.Build "/data" true
         [LongVideoBenchDataset.Annotation
            "clip.mp4" 12 "What happens?" ["a dog"; "a cat"] (Some 1) "q1"]) 0
    = Ok it /\
    String.length (StrExt.join_chars StrExt.newline "B. a cat")
    = (2 * String.length (LongVideoBenchDataset.item_answer it) - 1)%nat /\
    (forall k, Str.nth (StrExt.join_chars StrExt.newline "B. a cat") (2 * k)
               = Str.nth (LongVideoBenchDataset.item_answer it) k) /\
    (forall k, (S k < String.length (LongVideoBenchDataset.item_answer it))%nat ->
               Str.nth (StrExt.join_chars StrExt.newline "B. a cat") (2 * k + 1)
               = Some "010"%char).
Proof.
  apply (task_gt_answer_interleaved (num:=Z) (fun q o => q +:+ o)
           (TaskItems.Build 1
              (LongVideoBenchDataset.Build "/data" true
                 [LongVideoBenchDataset.Annotation
                    "clip.mp4" 12 "What happens?" ["a dog"; "a cat"] (Some 1) "q1"]))
           0
           (StandardData.Build
              "What happens?A. a dog
B. a cat"
              (StrExt.join_chars StrExt.newline "B. a cat")
              [StandardData.Video "/data/videos/clip.mp4" (Some (0, 12)) 1]
              0 "q1"
              (LongVideoBenchDataset.Item "/data/videos/clip.mp4" (0, 12)
                 "What happens?" ["A. a dog"; "B. a cat"] "B. a cat" "q1"))).
  reflexivity.
Defined.

Lemma task_video_loaded_over_duration_witness :
  exists v,
    [StandardData.Video "/data/videos/clip.mp4" (Some (0, 12)) 1] = [v] /\
    LoadVideo._load_video Example.read_frames_decord v
    = Example.read_frames_decord "/data/videos/clip.mp4" 1 (Some 0) (Some 12).
Proof.
  apply (task_video_loaded_over_duration (num:=Z) (image:=Z) (fun q o => q +:+ o)
           Example.read_frames_decord
           (TaskItems.Build 1
              (LongVideoBenchDataset.Build "/data" true
                 [LongVideoBenchDataset.Annotation
                    "clip.mp4" 12 "What happens?" ["a dog"; "a cat"] (Some 1) "q1"]))
           0
           (LongVideoBenchDataset.Annotation
              "clip.mp4" 12 "What happens?" ["a dog"; "a cat"] (Some 1) "q1")
           (StandardData.Build
              "What happens?A. a dog
B. a cat"
              (StrExt.join_chars StrExt.newline "B. a cat")
              [StandardData.Video "/data/videos/clip.mp4" (Some (0, 12)) 1]
              0 "q1"
              (LongVideoBenchDataset.Item "/data/videos/clip.mp4" (0, 12)
                 "What happens?" ["A. a dog"; "B. a cat"] "B. a cat" "q1")));
    reflexivity.
Defined.

(** ** From the annotation to the score *)

Section letter_match.
Context {num : Type}.
Variable format_prompt : string -> string -> string.

(** The interleaved ground truth of the answer [letter. text] against the
    bare letter, for the 26 capital letters. *)
Lemma check_letter_against_interleaved (k : nat) (c : ascii) (text : string) :
  (k < 26)%nat ->
  check_answer
    (String (ascii_of_N (Z.to_N (65 + Z.of_nat k))) "")
    (StrExt.join_chars StrExt.newline
       (String (ascii_of_N (Z.to_N (65 + Z.of_nat k))) "" +:+ ". " +:+ String c text))
  = Ok true.
Proof.
  intros Hk.
  match goal with
  | |- check_answer ?p ?g = _ =>
      assert (Hrem : AnswerSpec.remainder (Str.lower g) <> "");
      [|destruct (check_answer_matches p g Hrem) as (b & -> & Hb);
        f_equal; apply Hb; left;
        exists "", (String "010" (String "." (String "010" "")))]
  end.
  - do 26 (destruct k as [|k]; [by destruct text|]). lia.
  - do 26 (destruct k as [|k]; [by destruct text|]). lia.
Qed.

(** X26: when ['correct_choice'] is an index [k] of a non-empty candidate
    and [k <= 25], the prediction that consists of the letter of this option
    alone is judged correct against the [gt_answer] of the task item. *)
Theorem letter_prediction_is_correct (self : TaskItems.t num) (index : Z)
    (di : LongVideoBenchDataset.annotation num) (sd : StandardData.t num)
    (k : Z) (text : string) :
  list_index (LongVideoBenchDataset.data (TaskItems.datas self)) index = Ok di ->
  LongVideoBenchDataset.correct_choice di = Some k ->
  0 <= k <= 25 ->
  LongVideoBenchDataset.candidates di !! Z.to_nat k = Some text ->
  text <> "" ->
  TaskItems.__getitem__ format_prompt self index = Ok sd ->
  exists letter,
    Str.chr (Str.ord "A" + k) = Ok letter /\
    check_answer letter (StandardData.gt_answer sd) = Ok true.
Proof.
  intros Hdi Hcc Hk Htext Hne Hsd.
  destruct (task_getitem_inv _ _ _ _ Hsd) as (it & Hit & ->).
  destruct (getitem_inv _ _ _ Hit) as (di' & options & Hdi' & _ & Hans & _).
  rewrite Hdi in Hdi'. injection Hdi' as <-.
  cbn [StandardData.gt_answer].
  unfold LongVideoBenchDataset.answer_of,
    LongVideoBenchDataset.get_correct_choice in Hans.
  rewrite Hcc in Hans. cbn [default from_option] in Hans.
  change (Datatypes.id k) with k in Hans.
  change (Str.ord "A") with 65 in *.
  rewrite chr_latin1 in Hans |- * by lia. cbn [mbind pyres_bind] in Hans.
  rewrite (list_index_lookup _ _ text) in Hans by (done || lia).
  cbn [mbind pyres_bind] in Hans. injection Hans as <-.
  eexists. split; [done|].
  destruct text as [|c text]; [done|].
  rewrite <- (Z2Nat.id k) by lia.
  apply check_letter_against_interleaved. lia.
Qed.

End letter_match.

Lemma letter_prediction_is_correct_witness :
  exists letter,
    Str.chr (Str.ord "A" + 1) = Ok letter /\
    check_answer letter (StrExt.join_chars StrExt.newline "B. a cat") = Ok true.
Proof.
  apply (letter_prediction_is_correct (num:=Z) (fun q o => q +:+ o)
           (TaskItems.Build 1
              (LongVideoBenchDataset.Build "/data" true
                 [LongVideoBenchDataset.Annotation
                    "clip.mp4" 12 "What happens?" ["a dog"; "a cat"] (Some 1) "q1"]))
           0
           (LongVideoBenchDataset.Annotation
              "clip.mp4" 12 "What happens?" ["a dog"; "a cat"] (Some 1) "q1")
           (StandardData.Build
              "What happens?A. a dog
B. a cat"
              (StrExt.join_chars StrExt.newline "B. a cat")
              [StandardData.Video "/data/videos/clip.mp4" (Some (0, 12)) 1]
              0 "q1"
              (LongVideoBenchDataset.Item "/data/videos/clip.mp4" (0, 12)
                 "What happens?" ["A. a dog"; "B. a cat"] "B. a cat" "q1"))
           1 "a cat").
  - reflexivity.
  - reflexivity.
  - lia.
  - reflexivity.
  - done.
  - reflexivity.
Defined.

(** ** Samples *)

Section samples.
Context {num image tensor : Type}.
Variable format_prompt : string -> string -> string.
Variable read_frames_decord :
  string -> Z -> option Z -> option num -> pyres (list image * list Z).
Variable dynamic_preprocess : image -> Z -> bool -> Z -> pyres (list image).
Variable transform : image -> pyres tensor.

Lemma mapM_length {A B} (f : A -> pyres B) (l : list A) (ys : list B) :
  Py.mapM f l = Ok ys -> length ys = length l.
Proof. intros H%mapM_inv. symmetry. by eapply Forall2_length. Qed.

(** The loop keeps the number of tensors equal to the sum of the patch
    counts, and without dynamic resolution every count is 1. *)
Lemma patch_loop_inv (self : InferenceDataset.t num) (images : list image)
    (counts counts' : list Z) (pixels pixels' : list tensor) :
  InferenceDataset.patch_loop dynamic_preprocess transform self images counts pixels
  = Ok (counts', pixels') ->
  Z.of_nat (length pixels') - Z.of_nat (length pixels)
  = Py.sum counts' - Py.sum counts /\
  length counts' = (length counts + length images)%nat /\
  (InferenceDataset.dynamic_image_size self = false ->
   Forall (fun n => n = 1) counts -> Forall (fun n => n = 1) counts').
Proof.
  revert counts pixels. induction images as [|img images IH];
    intros counts pixels Hloop; cbn [InferenceDataset.patch_loop] in Hloop.
  - injection Hloop as <- <-. split; [lia|]. split; [cbn; lia|done].
  - destruct (if InferenceDataset.dynamic_image_size self
              then dynamic_preprocess img (InferenceDataset.input_size self)
                     (InferenceDataset.use_thumbnail self)
                     (InferenceDataset.max_num self)
              else Ok [img]) as [patches|e] eqn:Hpatches;
      cbn [mbind pyres_bind] in Hloop; [|done].
    destruct (Py.mapM transform patches) as [transformed|e] eqn:Htr;
      cbn [mbind pyres_bind] in Hloop; [|done].
    apply IH in Hloop as (Hsum & Hlen & Hones).
    apply mapM_length in Htr.
    rewrite sum_app, sum_singleton, !length_app in *. cbn [length] in *.
    split; [lia|]. split; [lia|].
    intros Hdyn Hall. apply Hones; [done|].
    rewrite Hdyn in Hpatches. injection Hpatches as <-.
    apply Forall_app. split; [done|]. by constructor.
Qed.

(** X27: a sample that [InferenceDataset.__getitem__] returns has at least
    one tensor in [pixel_values], their number is the sum of
    [num_patches_list], and without dynamic resolution every entry of
    [num_patches_list] is 1. *)
Theorem sample_patch_counts (self : InferenceDataset.t num) (idx : Z)
    (s : InferenceDataset.sample tensor) :
  InferenceDataset.__getitem__
    format_prompt read_frames_decord dynamic_preprocess transform self idx = Ok s ->
  InferenceDataset.pixel_values s <> [] /\
  Z.of_nat (length (InferenceDataset.pixel_values s))
  = Py.sum (InferenceDataset.num_patches_list s) /\
  (InferenceDataset.dynamic_image_size self = false ->
   Forall (fun n => n = 1) (InferenceDataset.num_patches_list s) /\
   length (InferenceDataset.num_patches_list s)
   = length (InferenceDataset.pixel_values s)).
Proof.
  unfold InferenceDataset.__getitem__. intros Hs.
  destruct (TaskItems.__getitem__ _ _ _) as [task_data|e];
    cbn [mbind pyres_bind] in Hs; [|done].
  destruct (Py.mapM _ _) as [batch_frames|e];
    cbn [mbind pyres_bind] in Hs; [|done].
  destruct (InferenceDataset.patch_loop _ _ _ _ _ _) as [[counts pixels]|e] eqn:Hloop;
    cbn [mbind pyres_bind fst snd] in Hs; [|done].
  destruct pixels as [|t pixels]; cbn [InferenceDataset.torch_stack] in Hs; [done|].
  cbn [mbind pyres_bind] in Hs. injection Hs as <-.
  cbn [InferenceDataset.pixel_values InferenceDataset.num_patches_list].
  apply patch_loop_inv in Hloop as (Hsum & Hlen & Hones).
  change (Py.sum []) with 0 in Hsum. cbn [length] in Hsum, Hlen |- *.
  split; [done|]. split; [lia|].
  intros Hdyn. specialize (Hones Hdyn (Forall_nil_2 _)). split; [done|].
  assert (Hs1 : forall l : list Z, Forall (fun n => n = 1) l ->
                                   Py.sum l = Z.of_nat (length l)).
  { induction 1 as [|x l Hx _ IHl]; [done|]. subst x.
    change (1 :: l) with ([1] ++ l) at 1.
    rewrite sum_app, sum_singleton, IHl. cbn [length]. lia. }
  rewrite (Hs1 _ Hones) in Hsum. cbn [length]. lia.
Qed.

End samples.

Lemma sample_patch_counts_witness :
  [5%nat] <> [] /\
  Z.of_nat (length [5%nat]) = Py.sum [1] /\
  (false = false ->
   Forall (fun n => n = 1) [1] /\ length [1] = length [5%nat]).
Proof.
  apply (sample_patch_counts (num:=Z) (image:=nat) (tensor:=nat)
           (fun q o => q +:+ o)
           (fun _ _ _ _ => Ok ([5%nat], [0]))
           (fun img _ _ _ => Ok [img; img])
           (fun img => Ok img)
           (InferenceDataset.Build
              (TaskItems.Build 1
                 (LongVideoBenchDataset.Build "/data" true
                    [LongVideoBenchDataset.Annotation
                       "clip.mp4" 12 "What happens?" ["a dog"; "a cat"] (Some 1) "q1"]))
              448 false true 6)
           0
           (InferenceDataset.Sample
              "What happens?A. a dog
B. a cat"
              [5%nat]
              (StrExt.join_chars StrExt.newline "B. a cat")
              [1]
              "q1")).
  reflexivity.
Defined.

(** ** The distributed run *)

Section distributed_run.
Context {num image tensor : Type}.
Variable format_prompt : string -> string -> string.
Variable read_frames_decord :
  string -> Z -> option Z -> option num -> pyres (list image * list Z).
Variable dynamic_preprocess : image -> Z -> bool -> Z -> pyres (list image).
Variable transform : image -> pyres tensor.
Variable chat : list tensor -> list Z -> string -> pyres string.

#[local] Abbreviation step :=
  (EvaluateChatModel.step
     format_prompt read_frames_decord dynamic_preprocess transform chat).
#[local] Abbreviation rank_outputs :=
  (EvaluateChatModel.rank_outputs
     format_prompt read_frames_decord dynamic_preprocess transform chat).
#[local] Abbreviation merged_outputs :=
  (EvaluateChatModel.merged_outputs
     format_prompt read_frames_decord dynamic_preprocess transform chat).
#[local] Abbreviation evaluate_chat_model :=
  (EvaluateChatModel.evaluate_chat_model
     format_prompt read_frames_decord dynamic_preprocess transform chat).

Lemma concat_fmap_bind {A B} (f : A -> list B) (l : list A) :
  concat (f <$> l) = l ≫= f.
Proof. induction l as [|x l IH]; [done|]. csimpl. by rewrite IH. Qed.

Lemma concat_fmap_fmap {A B C} (g : B -> C) (f : A -> list B) (l : list A) :
  concat ((fun x => g <$> f x) <$> l) = g <$> concat (f <$> l).
Proof.
  induction l as [|x l IH]; [done|]. cbn [fmap list_fmap concat] in *.
  by rewrite fmap_app, IH.
Qed.

(** Chained in rank order, the lists of the modulo scheme hold every index
    of [range(size)] once. *)
Lemma modulo_indices_Permutation (size world_size : Z) :
  0 < world_size ->
  concat (InferenceSamplerV2.modulo_indices size world_size <$> Py.range world_size)
  ≡ₚ Py.range size.
Proof.
  intros Hw. rewrite concat_fmap_bind. apply NoDup_Permutation.
  - apply NoDup_bind.
    + intros r1 r2 i _ _ H1 H2.
      apply elem_of_modulo_indices in H1, H2. lia.
    + intros r _. apply NoDup_filter, NoDup_seqZ.
    + apply NoDup_seqZ.
  - apply NoDup_seqZ.
  - intros i. rewrite list_elem_of_bind. unfold Py.range, Py.range2.
    setoid_rewrite elem_of_modulo_indices. setoid_rewrite elem_of_seqZ.
    split.
    + intros (r & [Hi _] & _). lia.
    + intros Hi. exists (i mod world_size).
      pose proof (Z.mod_pos_bound i world_size Hw). split; [split; [lia|done]|lia].
Qed.

Lemma modulo_indices_single (size : Z) :
  InferenceSamplerV2.modulo_indices size 1 0 = Py.range size.
Proof.
  unfold InferenceSamplerV2.modulo_indices.
  induction (Py.range size) as [|i l IH]; [done|].
  rewrite filter_cons, IH. by rewrite decide_True by apply Z.mod_1_r.
Qed.

Lemma rank_outputs_eq (vid_dataset : InferenceDataset.t num) (rank world_size : Z) :
  0 < InferenceDataset.__len__ vid_dataset -> world_size <> 0 ->
  rank_outputs vid_dataset rank world_size
  = Py.mapM (step vid_dataset)
      (InferenceSamplerV2.modulo_indices
         (InferenceDataset.__len__ vid_dataset) world_size rank).
Proof.
  intros Hlen Hw. unfold EvaluateChatModel.rank_outputs.
  by rewrite init_int.
Qed.

(** On a single process the merged list is the list of the outputs in
    dataset order. *)
Lemma merged_outputs_single (vid_dataset : InferenceDataset.t num) :
  0 < InferenceDataset.__len__ vid_dataset ->
  merged_outputs vid_dataset 1
  = Py.mapM (step vid_dataset) (Py.range (InferenceDataset.__len__ vid_dataset)).
Proof.
  intros Hlen. unfold EvaluateChatModel.merged_outputs.
  change (Py.range 1) with [0]. cbn [Py.mapM].
  rewrite rank_outputs_eq, modulo_indices_single by done.
  destruct (Py.mapM _ _) as [outs|e]; [|done].
  cbn [mbind pyres_bind concat]. by rewrite app_nil_r.
Qed.

Lemma mapM_total {A B} `{Inhabited B} (f : A -> pyres B) (l : list A) (ys : list B) :
  Py.mapM f l = Ok ys ->
  exists g : A -> B, ys = g <$> l /\ forall x, x ∈ l -> f x = Ok (g x).
Proof.
  intros Hm. exists (fun x => match f x with Ok y => y | Raise _ => inhabitant end).
  apply mapM_inv in Hm. induction Hm as [|x y l ys Hxy _ [IH1 IH2]].
  - split; [done|]. intros x Hx. by apply elem_of_nil in Hx.
  - split.
    + cbn [fmap list_fmap]. by rewrite Hxy, IH1.
    + intros z [->|Hz]%elem_of_cons; [by rewrite Hxy|by apply IH2].
Qed.

(** Whatever the number of processes, the merged list is a rearrangement
    of the single-process list. *)
Lemma merged_outputs_Permutation (vid_dataset : InferenceDataset.t num)
    (world_size : Z) (outs : list (gmap string string)) :
  0 < InferenceDataset.__len__ vid_dataset -> 0 < world_size ->
  merged_outputs vid_dataset 1 = Ok outs ->
  exists merged,
    merged_outputs vid_dataset world_size = Ok merged /\ merged ≡ₚ outs.
Proof.
  intros Hlen Hw Hone. rewrite merged_outputs_single in Hone by done.
  destruct (mapM_total _ _ _ Hone) as (g & -> & Hg).
  unfold EvaluateChatModel.merged_outputs.
  rewrite (mapM_ok _ (fun rank =>
             g <$> InferenceSamplerV2.modulo_indices
                     (InferenceDataset.__len__ vid_dataset) world_size rank)).
  - cbn [mbind pyres_bind]. eexists. split; [done|].
    rewrite concat_fmap_fmap. by rewrite modulo_indices_Permutation.
  - intros rank _. rewrite rank_outputs_eq by lia.
    apply mapM_ok. intros i Hi. apply Hg.
    apply elem_of_modulo_indices in Hi as [Hi _].
    unfold Py.range, Py.range2. apply elem_of_seqZ. lia.
Qed.



(** X30: an output of the loop carries the fields of the sample it was
    made from: ['question'] and ['task_type'] are those of the sample,
    ['gt'] is its answer, and ['pred'] is what the model answers to the
    sample's tensors, patch counts and question; collating the single sample
    changes nothing. In particular the keys ['pred'] and ['gt'] that
    [evaluate] reads are present. *)
Theorem step_output (vid_dataset : InferenceDataset.t num) (idx : Z)
    (out : gmap string string) :
  step vid_dataset idx = Ok out ->
  exists s pred,
    InferenceDataset.__getitem__
      format_prompt read_frames_decord dynamic_preprocess transform
      vid_dataset idx = Ok s /\
    chat (InferenceDataset.pixel_values s)
         (InferenceDataset.num_patches_list s)
         (InferenceDataset.question s) = Ok pred /\
    out !! "question" = Some (InferenceDataset.question s) /\
    out !! "pred" = Some pred /\
    out !! "gt" = Some (InferenceDataset.answer s) /\
    out !! "task_type" = Some (InferenceDataset.task_type s) /\
    LongVideoBenchTask.score out = check_answer pred (InferenceDataset.answer s).
Proof.
  unfold EvaluateChatModel.step. intros Hout.
  destruct (InferenceDataset.__getitem__ _ _ _ _ _ _) as [s|e] eqn:Hs;
    cbn [mbind pyres_bind] in Hout; [|done].
  cbn [InferenceDataset.collate_fn InferenceDataset.torch_cat fmap list_fmap
       mbind pyres_bind concat] in Hout.
  rewrite !list_index_0 in Hout. cbn [mbind pyres_bind] in Hout.
  rewrite app_nil_r in Hout.
  destruct (chat _ _ _) as [pred|e] eqn:Hchat;
    cbn [mbind pyres_bind] in Hout; [|done].
  injection Hout as <-. exists s, pred.
  split; [done|]. split; [done|].
  assert (Hq : forall v : string,
             (<["question" := InferenceDataset.question s]>
                (<["pred" := pred]>
                   (<["gt" := InferenceDataset.answer s]>
                      (<["task_type" := v]> (∅ : gmap string string)))))
             !! "pred" = Some pred) by (intros v; by simplify_map_eq).
  assert (Hg : forall v : string,
             (<["question" := InferenceDataset.question s]>
                (<["pred" := pred]>
                   (<["gt" := InferenceDataset.answer s]>
                      (<["task_type" := v]> (∅ : gmap string string)))))
             !! "gt" = Some (InferenceDataset.answer s))
    by (intros v; by simplify_map_eq).
  split; [by simplify_map_eq|]. split; [apply Hq|]. split; [apply Hg|].
  split; [by simplify_map_eq|].
  unfold LongVideoBenchTask.score, dict_get. by rewrite Hq, Hg.
Qed.

End distributed_run.



Lemma step_output_witness :
  exists s pred,
    InferenceDataset.__getitem__
      Example.format_prompt Example.read_frames_decord Example.dynamic_preprocess
      Example.transform Example.vid_dataset 1 = Ok s /\
    Example.chat (InferenceDataset.pixel_values s)
                 (InferenceDataset.num_patches_list s)
                 (InferenceDataset.question s) = Ok pred /\
    (<["question" := "Question: Who enters? Options: A. a man
B. a woman"]>
       (<["pred" := "A"]>
          (<["gt" := StrExt.join_chars StrExt.newline "B. a woman"]>
             (<["task_type" := "q2"]> (∅ : gmap string string)))))
    !! "question" = Some (InferenceDataset.question s) /\
    (<["question" := "Question: Who enters? Options: A. a man
B. a woman"]>
       (<["pred" := "A"]>
          (<["gt" := StrExt.join_chars StrExt.newline "B. a woman"]>
             (<["task_type" := "q2"]> (∅ : gmap string string)))))
    !! "pred" = Some pred /\
    (<["question" := "Question: Who enters? Options: A. a man
B. a woman"]>
       (<["pred" := "A"]>
          (<["gt" := StrExt.join_chars StrExt.newline "B. a woman"]>
             (<["task_type" := "q2"]> (∅ : gmap string string)))))
    !! "gt" = Some (InferenceDataset.answer s) /\
    (<["question" := "Question: Who enters? Options: A. a man
B. a woman"]>
       (<["pred" := "A"]>
          (<["gt" := StrExt.join_chars StrExt.newline "B. a woman"]>
             (<["task_type" := "q2"]> (∅ : gmap string string)))))
    !! "task_type" = Some (InferenceDataset.task_type s) /\
    LongVideoBenchTask.score
      (<["question" := "Question: Who enters? Options: A. a man
B. a woman"]>
         (<["pred" := "A"]>
            (<["gt" := StrExt.join_chars StrExt.newline "B. a woman"]>
               (<["task_type" := "q2"]> (∅ : gmap string string)))))
    = check_answer pred (InferenceDataset.answer s).
Proof.
  apply (step_output
           Example.format_prompt Example.read_frames_decord
           Example.dynamic_preprocess Example.transform Example.chat
           Example.vid_dataset 1).
  vm_compute. reflexivity.
Defined.
